(** * Pharmaceutical ledger: a shallow embedding of [main.py]

    The development follows the Python source top-down: the library
    functions the program calls ([hashlib.sha256], [json.dumps],
    [csv.writer], [str.encode], [print], [time.ctime], the [os] file
    queries), then the [Block] class, then the [PharmaBlockChain] class,
    then the theorems about them.

    Python strings are modelled by Rocq strings, one character per code
    point in the range 0..255; Python integers by [Z]. *)

From Stdlib Require Import ZArith List String Ascii Lia Permutation Bool.
From Stdlib Require Import DecimalString.
From Stdlib Require Import Init.Byte.
From stdpp Require Import gmap strings.
Import ListNotations.

Local Open Scope string_scope.
Local Open Scope list_scope.
Local Open Scope Z_scope.

(** ** hashlib.sha256 (FIPS 180-4) *)

Module SHA256.

Definition w32 (x : Z) : Z := Z.land x 0xFFFFFFFF.
Definition add32 (x y : Z) : Z := w32 (x + y).
Definition rotr (n x : Z) : Z :=
  Z.lor (Z.shiftr x n) (w32 (Z.shiftl x (32 - n))).
Definition not32 (x : Z) : Z := Z.lxor x 0xFFFFFFFF.

Definition Ch (x y z : Z) := Z.lxor (Z.land x y) (Z.land (not32 x) z).
Definition Maj (x y z : Z) :=
  Z.lxor (Z.lxor (Z.land x y) (Z.land x z)) (Z.land y z).
Definition bsig0 x := Z.lxor (Z.lxor (rotr 2 x) (rotr 13 x)) (rotr 22 x).
Definition bsig1 x := Z.lxor (Z.lxor (rotr 6 x) (rotr 11 x)) (rotr 25 x).
Definition ssig0 x := Z.lxor (Z.lxor (rotr 7 x) (rotr 18 x)) (Z.shiftr x 3).
Definition ssig1 x := Z.lxor (Z.lxor (rotr 17 x) (rotr 19 x)) (Z.shiftr x 10).

(** The round constants and the initial hash value are the first 32 bits of
    the fractional parts of the cube roots, resp. square roots, of the first
    primes. [int_root k bits x] is the integer [k]-th root of [x], found bit
    by bit from bit [bits - 1] down. *)
Fixpoint int_root_from (k : Z) (bits : nat) (x r : Z) : Z :=
  match bits with
  | O => r
  | S b =>
      let c := Z.lor r (Z.shiftl 1 (Z.of_nat b)) in
      int_root_from k b x (if c ^ k <=? x then c else r)
  end.

Definition frac_root (k p : Z) : Z :=
  w32 (int_root_from k 40 (Z.shiftl p (32 * k)) 0).

Definition is_prime (n : Z) : bool :=
  (2 <=? n)
  && forallb (fun d => negb (n mod Z.of_nat d =? 0)) (seq 2 (Z.to_nat n - 2)).

Definition primes_below (n : nat) : list Z :=
  filter is_prime (map Z.of_nat (seq 0 n)).

Definition K : list Z :=
  Eval vm_compute in map (frac_root 3) (firstn 64 (primes_below 312)).

Definition IV : list Z :=
  Eval vm_compute in map (frac_root 2) (firstn 8 (primes_below 20)).

(** Big-endian bytes of a [n]-byte quantity. *)
Fixpoint be_bytes (n : nat) (x : Z) : list Z :=
  match n with
  | O => []
  | S m => Z.land (Z.shiftr x (8 * Z.of_nat m)) 0xFF :: be_bytes m x
  end.

Definition be_word (bs : list Z) : Z :=
  fold_left (fun acc b => Z.lor (Z.shiftl acc 8) b) bs 0.

(** Message padding: a one bit, zero bytes up to 56 mod 64, then the bit
    length on eight bytes. *)
Definition pad (msg : list Z) : list Z :=
  let l := Z.of_nat (List.length msg) in
  let zeros := Z.to_nat ((55 - l) mod 64) in
  msg ++ 0x80 :: repeat 0 zeros ++ be_bytes 8 (8 * l).

(** [chunks fuel n l] cuts [l] into pieces of [n] elements. *)
Fixpoint chunks {A} (fuel n : nat) (l : list A) : list (list A) :=
  match fuel, l with
  | O, _ | _, [] => []
  | S f, _ => firstn n l :: chunks f n (skipn n l)
  end.

Definition words_of_block (blk : list Z) : list Z :=
  map be_word (chunks 16 4 blk).

(** The schedule is kept as a sliding window of sixteen words: its head is
    W[t], and the word entering at the back is W[t+16]. *)
Definition next_word (win : list Z) : Z :=
  add32 (add32 (add32 (ssig1 (nth 14 win 0)) (nth 9 win 0))
               (ssig0 (nth 1 win 0)))
        (nth 0 win 0).

Record regs := Regs { ra : Z; rb : Z; rc : Z; rd : Z;
                      re : Z; rf : Z; rg : Z; rh : Z }.

Definition round (st : regs * list Z) (k : Z) : regs * list Z :=
  let '(r, win) := st in
  let wt := nth 0 win 0 in
  let t1 := add32 (add32 (add32 (add32 (rh r) (bsig1 (re r)))
                                (Ch (re r) (rf r) (rg r))) k) wt in
  let t2 := add32 (bsig0 (ra r)) (Maj (ra r) (rb r) (rc r)) in
  (Regs (add32 t1 t2) (ra r) (rb r) (rc r) (add32 (rd r) t1) (re r) (rf r) (rg r),
   tl win ++ [next_word win]).

Definition regs_of (h : list Z) : regs :=
  Regs (nth 0 h 0) (nth 1 h 0) (nth 2 h 0) (nth 3 h 0)
       (nth 4 h 0) (nth 5 h 0) (nth 6 h 0) (nth 7 h 0).

Definition compress (h : list Z) (blk : list Z) : list Z :=
  let r0 := regs_of h in
  let r := fst (fold_left round K (r0, words_of_block blk)) in
  [add32 (ra r0) (ra r); add32 (rb r0) (rb r); add32 (rc r0) (rc r);
   add32 (rd r0) (rd r); add32 (re r0) (re r); add32 (rf r0) (rf r);
   add32 (rg r0) (rg r); add32 (rh r0) (rh r)].

Definition byte_to_Z (b : byte) : Z := Z.of_N (Byte.to_N b).
Definition Z_to_byte (z : Z) : byte :=
  match Byte.of_N (Z.to_N z) with Some b => b | None => x00 end.

(** [hashlib.sha256(data).digest()] *)
Definition digest (data : list byte) : list byte :=
  let padded := pad (map byte_to_Z data) in
  let blocks := chunks (List.length padded) 64 padded in
  map Z_to_byte (flat_map (be_bytes 4) (fold_left compress blocks IV)).

Definition hex_digit (n : Z) : ascii :=
  ascii_of_nat (Z.to_nat (if n <? 10 then 48 + n else 87 + n)).

Definition hex_of_byte (b : byte) : string :=
  let z := byte_to_Z b in
  String (hex_digit (Z.shiftr z 4)) (String (hex_digit (Z.land z 15)) EmptyString).

(** [hashlib.sha256(data).hexdigest()] *)
Definition hexdigest (data : list byte) : string :=
  fold_right (fun b acc => hex_of_byte b +:+ acc) EmptyString (digest data).

End SHA256.

(** ** Python values

    The values a payload can hold and [json.dumps] can serialise: [None],
    booleans, integers, strings, lists, and dictionaries with string keys.
    A dictionary is the list of its items in insertion order; its keys are
    pairwise distinct ([wf_val]). *)

#[local] Set Warnings "-register-all".

Inductive pyval :=
| PyNone
| PyBool (b : bool)
| PyInt (z : Z)
| PyStr (s : string)
| PyList (l : list pyval)
| PyDict (d : list (string * pyval)).

Abbreviation pydict := (list (string * pyval)).

(** No key occurs twice, at any depth. *)
Fixpoint wf_val (v : pyval) : Prop :=
  match v with
  | PyList l => fold_right (fun x acc => wf_val x /\ acc) True l
  | PyDict d =>
      NoDup (map fst d) /\ fold_right (fun kv acc => wf_val (snd kv) /\ acc) True d
  | _ => True
  end.

(** [d.get(key, default)] *)
Fixpoint dict_get (d : pydict) (key : string) (default : pyval) : pyval :=
  match d with
  | [] => default
  | (k, v) :: rest => if String.eqb k key then v else dict_get rest key default
  end.

(** [sep.join(parts)] *)
Fixpoint join (sep : string) (parts : list string) : string :=
  match parts with
  | [] => EmptyString
  | [p] => p
  | p :: rest => p +:+ sep +:+ join sep rest
  end.

Definition chr (n : Z) : ascii := ascii_of_nat (Z.to_nat n).
Definition ord (c : ascii) : Z := Z.of_nat (nat_of_ascii c).
Definition char_str (n : Z) : string := String (chr n) EmptyString.

Definition DQUOTE : string := char_str 34.
Definition SQUOTE : string := char_str 39.
Definition BACKSLASH : string := char_str 92.
Definition CRLF : string := String (chr 13) (String (chr 10) EmptyString).

(** [repr] of an [int] *)
Definition int_repr (z : Z) : string := NilZero.string_of_int (Z.to_int z).

(** [needle in hay] for strings *)
Fixpoint str_contains (needle hay : string) : bool :=
  String.prefix needle hay
  || match hay with
     | EmptyString => false
     | String _ rest => str_contains needle rest
     end.

Definition has_char (n : Z) (s : string) : bool :=
  existsb (fun c => ord c =? n) (list_ascii_of_string s).

Definition concat_map (f : ascii -> string) (s : string) : string :=
  fold_right (fun c acc => f c +:+ acc) EmptyString (list_ascii_of_string s).

Fixpoint hex_digits (n : nat) (x : Z) : string :=
  match n with
  | O => EmptyString
  | S m => String (SHA256.hex_digit (Z.land (Z.shiftr x (4 * Z.of_nat m)) 15))
                  (hex_digits m x)
  end.

(** ** json.dumps(obj, sort_keys=True)

    Default options otherwise: [ensure_ascii=True], separators [", "] and
    [": "], no indentation. *)

Definition json_escape (c : ascii) : string :=
  let n := ord c in
  if n =? 34 then BACKSLASH +:+ DQUOTE
  else if n =? 92 then BACKSLASH +:+ BACKSLASH
  else if n =? 10 then BACKSLASH +:+ "n"
  else if n =? 13 then BACKSLASH +:+ "r"
  else if n =? 9 then BACKSLASH +:+ "t"
  else if n =? 8 then BACKSLASH +:+ "b"
  else if n =? 12 then BACKSLASH +:+ "f"
  else if (32 <=? n) && (n <=? 126) then String c EmptyString
  else BACKSLASH +:+ "u" +:+ hex_digits 4 n.

Definition json_string (s : string) : string :=
  DQUOTE +:+ concat_map json_escape s +:+ DQUOTE.

(** [sorted(d.items())]: the keys of a dictionary are distinct, so the order
    of the items is the order of their keys, code point by code point. *)
Fixpoint insert_item {A} (x : string * A) (l : list (string * A))
  : list (string * A) :=
  match l with
  | [] => [x]
  | y :: rest =>
      if String.leb (fst x) (fst y) then x :: l else y :: insert_item x rest
  end.

Definition sorted_items {A} (l : list (string * A)) : list (string * A) :=
  fold_right insert_item [] l.

Definition json_item (kv : string * string) : string :=
  json_string (fst kv) +:+ ": " +:+ snd kv.

(** The encoder sorts the items of a dictionary and then encodes each value;
    encoding has no effect, so the values are encoded here before the items
    are put in order. *)
Fixpoint json_dumps (v : pyval) : string :=
  match v with
  | PyNone => "null"
  | PyBool true => "true"
  | PyBool false => "false"
  | PyInt z => int_repr z
  | PyStr s => json_string s
  | PyList l => "[" +:+ join ", " (map json_dumps l) +:+ "]"
  | PyDict d =>
      "{" +:+ join ", " (map json_item
                (sorted_items (map (fun kv => (fst kv, json_dumps (snd kv))) d)))
          +:+ "}"
  end.

(** ** str.encode(): UTF-8 *)

Definition utf8_char (c : ascii) : list byte :=
  let n := ord c in
  if n <? 128 then [SHA256.Z_to_byte n]
  else [SHA256.Z_to_byte (Z.lor 0xC0 (Z.shiftr n 6));
        SHA256.Z_to_byte (Z.lor 0x80 (Z.land n 0x3F))].

Definition str_encode (s : string) : list byte :=
  flat_map utf8_char (list_ascii_of_string s).

(** ** str() and repr() *)

Definition printable (n : Z) : bool :=
  ((32 <=? n) && (n <? 127)) || ((161 <=? n) && negb (n =? 173)).

Definition repr_escape (quote : Z) (c : ascii) : string :=
  let n := ord c in
  if (n =? quote) || (n =? 92) then BACKSLASH +:+ String c EmptyString
  else if n =? 9 then BACKSLASH +:+ "t"
  else if n =? 10 then BACKSLASH +:+ "n"
  else if n =? 13 then BACKSLASH +:+ "r"
  else if printable n then String c EmptyString
  else BACKSLASH +:+ "x" +:+ hex_digits 2 n.

Definition str_repr (s : string) : string :=
  let quote := if has_char 39 s && negb (has_char 34 s) then 34 else 39 in
  char_str quote +:+ concat_map (repr_escape quote) s +:+ char_str quote.

Fixpoint py_repr (v : pyval) : string :=
  match v with
  | PyNone => "None"
  | PyBool true => "True"
  | PyBool false => "False"
  | PyInt z => int_repr z
  | PyStr s => str_repr s
  | PyList l => "[" +:+ join ", " (map py_repr l) +:+ "]"
  | PyDict d =>
      "{" +:+ join ", " (map (fun kv => str_repr (fst kv) +:+ ": " +:+ py_repr (snd kv)) d)
          +:+ "}"
  end.

(** [str(v)], which is what an f-string field [{v}] renders. *)
Definition py_str (v : pyval) : string :=
  match v with
  | PyStr s => s
  | _ => py_repr v
  end.

(** ** csv.writer(f).writerow(fields)

    The default dialect: comma delimiter, double-quote quote character,
    minimal quoting with doubled quote characters, line terminator CR LF. *)

Definition csv_needs_quotes (field : string) : bool :=
  has_char 44 field || has_char 34 field || has_char 13 field || has_char 10 field.

Definition csv_field (field : string) : string :=
  if csv_needs_quotes field
  then DQUOTE +:+ concat_map (fun c => if ord c =? 34 then DQUOTE +:+ DQUOTE
                                       else String c EmptyString) field
              +:+ DQUOTE
  else field.

Definition csv_row (fields : list string) : string :=
  match fields with
  | [EmptyString] => DQUOTE +:+ DQUOTE +:+ CRLF
  | _ => join "," (map csv_field fields) +:+ CRLF
  end.

(** Reading aid for the examples: every apostrophe stands for a double
    quote. *)
Definition dq (s : string) : string :=
  concat_map (fun c => if ord c =? 39 then DQUOTE else String c EmptyString) s.

(** ** Effects: exceptions, standard output, the clock and the file system

    A method runs in a state that holds the attribute [self.chain] of the
    [PharmaBlockChain] instance it is called on, what has been printed, the
    files on disk, and the clock: [clock n] is what the [n]-th call of
    [time.ctime()] answers. *)

Inductive exn := IndexError | FileNotFoundError.

Definition exn_name (e : exn) : string :=
  match e with
  | IndexError => "IndexError"
  | FileNotFoundError => "FileNotFoundError"
  end.

Inductive result (A : Type) :=
| Return (a : A)
| Raise (e : exn).
Arguments Return {A} a.
Arguments Raise {A} e.

Record Block := mkBlock {
  index : Z;
  timestamp : string;
  data : pydict;
  prev_hash : string;
  block_info : pydict;
  hash : string
}.

Record State := mkState {
  self_chain : list Block;
  stdout : list string;
  files : gmap string string;
  clock : nat -> string;
  ticks : nat
}.

Definition M (A : Type) : Type := State -> result A * State.

Definition ret {A} (a : A) : M A := fun st => (Return a, st).
Definition raise {A} (e : exn) : M A := fun st => (Raise e, st).
Definition bind {A B} (c : M A) (k : A -> M B) : M B :=
  fun st => match c st with
            | (Return a, st') => k a st'
            | (Raise e, st') => (Raise e, st')
            end.

Notation "x <- c ;; k" := (bind c (fun x => k))
  (at level 100, c at next level, right associativity).
Notation "c ;; k" := (bind c (fun _ => k))
  (at level 100, right associativity).

(** [for x in l: body(x)] *)
Fixpoint for_each {A} (l : list A) (body : A -> M unit) : M unit :=
  match l with
  | [] => ret tt
  | x :: rest => body x ;; for_each rest body
  end.

(** [print(s)]: one entry of [stdout] per call. *)
Definition print (s : string) : M unit :=
  fun st => (Return tt,
             mkState (self_chain st) (stdout st ++ [s]) (files st) (clock st) (ticks st)).

(** [time.ctime()] *)
Definition time_ctime : M string :=
  fun st => (Return (clock st (ticks st)),
             mkState (self_chain st) (stdout st) (files st) (clock st) (S (ticks st))).

(** Reading and assigning [self.chain]. *)
Definition get_chain : M (list Block) := fun st => (Return (self_chain st), st).
Definition set_chain (c : list Block) : M unit :=
  fun st => (Return tt, mkState c (stdout st) (files st) (clock st) (ticks st)).

(** [self.chain.append(b)] *)
Definition chain_append (b : Block) : M unit :=
  c <- get_chain ;; set_chain (c ++ [b]).

Definition len {A} (l : list A) : Z := Z.of_nat (List.length l).

(** [range(a, b)] *)
Definition py_range (a b : Z) : list Z :=
  map (fun k => a + Z.of_nat k) (seq 0 (Z.to_nat (b - a))).

(** [l[i]]: a negative index counts from the end; out of range raises. *)
Definition list_getitem {A} (l : list A) (i : Z) : M A :=
  let j := if i <? 0 then i + len l else i in
  if (j <? 0) || (len l <=? j) then raise IndexError
  else match l !! Z.to_nat j with
       | Some x => ret x
       | None => raise IndexError
       end.

(** [os.path.exists(path)] *)
Definition os_path_exists (path : string) : M bool :=
  fun st => (Return (bool_decide (is_Some (files st !! path))), st).

(** [os.stat(path).st_size] *)
Definition os_stat_st_size (path : string) : M Z :=
  fun st => match files st !! path with
            | Some content => (Return (len (str_encode content)), st)
            | None => (Raise FileNotFoundError, st)
            end.

(** What [readline()] answers on a file just opened in text mode: the text
    up to the first line end, with that line end (LF, CR or CR LF) read as
    LF. *)
Fixpoint first_line (content : string) : string :=
  match content with
  | EmptyString => EmptyString
  | String c rest =>
      if (ord c =? 10) || (ord c =? 13) then String (chr 10) EmptyString
      else String c (first_line rest)
  end.

(** [with open(path, "r") as f: f.readline()] *)
Definition open_readline (path : string) : M string :=
  fun st => match files st !! path with
            | Some content => (Return (first_line content), st)
            | None => (Raise FileNotFoundError, st)
            end.

(** The file system of the model is one directory, the working directory,
    whose files [files] lists by name. A plain name is a name a file of this
    directory can have: not empty, at most 255 bytes, without slash or NUL
    character, and neither of the two names of directories. *)
Definition plain_name (path : string) : bool :=
  negb (String.eqb path EmptyString)
  && negb (has_char 47 path) && negb (has_char 0 path)
  && negb (String.eqb path ".") && negb (String.eqb path "..")
  && (len (str_encode path) <=? 255).

(** Opening [path] in append mode, without newline translation. A file that
    exists is opened; a file that is absent is created when [path] is a
    plain name; under any other path there is nothing to open and no place
    to create a file in, and [open] raises, as it does for the empty path
    and for a path through a directory that does not exist. *)
Definition open_append (path : string) : M unit :=
  fun st => match files st !! path with
            | Some _ => (Return tt, st)
            | None =>
                if plain_name path
                then (Return tt,
                      mkState (self_chain st) (stdout st)
                              (<[path := EmptyString]> (files st))
                              (clock st) (ticks st))
                else (Raise FileNotFoundError, st)
            end.

(** Writing [text] at the end of a file opened for appending. *)
Definition file_write (path : string) (text : string) : M unit :=
  fun st => (Return tt,
             mkState (self_chain st) (stdout st)
                     (<[path := default EmptyString (files st !! path) +:+ text]> (files st))
                     (clock st) (ticks st)).

Definition writerow (path : string) (fields : list string) : M unit :=
  file_write path (csv_row fields).

(** ** class Block *)

Definition calcHash (self : Block) : string :=
  let block_str := str_encode (json_dumps (PyDict (block_info self))) in
  SHA256.hexdigest block_str.

(** [Block(index, timestamp, data, prev_hash)] *)
Definition Block_init (index : Z) (timestamp : string) (data : pydict)
    (prev_hash : string) : Block :=
  let info := [("Index", PyInt index);
               ("Timestamp", PyStr timestamp);
               ("Data", PyDict data);
               ("Previous Hash", PyStr prev_hash)] in
  let self := mkBlock index timestamp data prev_hash info EmptyString in
  mkBlock index timestamp data prev_hash info (calcHash self).

(** ** class PharmaBlockChain *)

Definition generate_genesis_block : M Block :=
  now <- time_ctime ;;
  ret (Block_init 0 now [("Event", PyStr "Genesis Block")] "0").

(** [PharmaBlockChain()] *)
Definition PharmaBlockChain_init : M unit :=
  genesis <- generate_genesis_block ;;
  set_chain [genesis].

Definition retrieve_block : M Block :=
  c <- get_chain ;; list_getitem c (-1).

Definition create_block (data : pydict) : M unit :=
  last_block <- retrieve_block ;;
  now <- time_ctime ;;
  let new_block :=
    Block_init (index last_block + 1) now data (hash last_block) in
  chain_append new_block.

Fixpoint validation_loop (indices : list Z) : M bool :=
  match indices with
  | [] => ret true
  | i :: rest =>
      c <- get_chain ;;
      current_block <- list_getitem c i ;;
      previous_block <- list_getitem c (i - 1) ;;
      if negb (String.eqb (prev_hash current_block) (hash previous_block))
      then print ("Block " +:+ int_repr i +:+ " has been tampered with") ;;
           ret false
      else validation_loop rest
  end.

Definition validation : M bool :=
  c <- get_chain ;;
  validation_loop (py_range 1 (len c)).

Definition write_chain (ledger_path : string) : M unit :=
  present <- os_path_exists ledger_path ;;
  header_needed <-
    (if negb present then ret true
     else size <- os_stat_st_size ledger_path ;;
          if size =? 0 then ret true
          else line <- open_readline ledger_path ;;
               ret (negb (str_contains "Timestamp" line))) ;;
  open_append ledger_path ;;
  (if header_needed : bool
   then writerow ledger_path ["Timestamp"; "Data"; "Hash"]
   else ret tt) ;;
  c <- get_chain ;;
  for_each c (fun block =>
    let data_string := json_dumps (PyDict (data block)) in
    writerow ledger_path [timestamp block; data_string; hash block]).

Definition display_block (block : Block) : M unit :=
  print (String (chr 10) EmptyString +:+ "Block #" +:+ int_repr (index block)) ;;
  print ("Timestamp: " +:+ timestamp block) ;;
  print ("Event: " +:+ py_str (dict_get (data block) "event" (PyStr "N/A"))) ;;
  print ("Batch ID: " +:+ py_str (dict_get (data block) "batch_id" (PyStr "N/A"))) ;;
  print ("Location: " +:+ py_str (dict_get (data block) "location" (PyStr "N/A"))) ;;
  print ("Destination: " +:+ py_str (dict_get (data block) "destination" (PyStr "N/A"))) ;;
  print ("Hash: " +:+ hash block) ;;
  print ("Previous Hash: " +:+ prev_hash block).

Definition display_chain : M unit :=
  c <- get_chain ;;
  for_each c display_block.

(** The [last_block] property. *)
Definition last_block : M Block :=
  c <- get_chain ;; list_getitem c (-1).

(** ** The script at the end of [main.py] *)

Definition ledger : string := "my_ledger.csv".

Definition journey_event (event location destination : string) : pydict :=
  [("event", PyStr event); ("batch_id", PyStr "Batch 1");
   ("location", PyStr location); ("destination", PyStr destination)].

Definition tampered_block : M Block :=
  last <- last_block ;;
  now <- time_ctime ;;
  ret (Block_init (index last + 1) now
         (journey_event "Mugged after purchase" "Dark alleyway"
                        "Albuquerque, New Mexico")
         "WhatAreTheOdds").

Definition main : M bool :=
  PharmaBlockChain_init ;;
  create_block (journey_event "Manufactured" "Factory A" "Distributor 1") ;;
  create_block (journey_event "Quality Tested" "Testing Lab A" "Distributor 1") ;;
  create_block (journey_event "Shipped" "Factory A" "Distributor 1") ;;
  create_block (journey_event "Received" "Distributor 1" "Warehouse X") ;;
  create_block (journey_event "Shipped" "Warehouse X" "CVS Pharmacy") ;;
  create_block (journey_event "Received" "CVS Pharmacy" "CVS Pharmacy") ;;
  create_block (journey_event "Sold" "Pharmacy X" "End User") ;;
  write_chain ledger ;;
  display_chain ;;
  b <- tampered_block ;;
  chain_append b ;;
  is_valid <- validation ;;
  print (String (chr 10) EmptyString +:+ "Blockchain Validity: "
         +:+ py_str (PyBool is_valid)) ;;
  ret is_valid.

(** ** Specification-level definitions *)

(** The first index whose block does not carry the stored hash of the block
    before it, found by walking the list; [prev] is the block at [i - 1]. *)
Fixpoint first_bad_link (i : Z) (prev : Block) (rest : list Block) : option Z :=
  match rest with
  | [] => None
  | b :: rest' =>
      if String.eqb (prev_hash b) (hash prev)
      then first_bad_link (i + 1) b rest'
      else Some i
  end.

Definition first_broken (c : list Block) : option Z :=
  match c with
  | [] => None
  | b :: rest => first_bad_link 1 b rest
  end.

(** Every block from the second on carries the stored hash of the block
    before it. *)
Definition links_hold (c : list Block) : Prop :=
  forall (i : nat) (b p : Block),
    c !! S i = Some b -> c !! i = Some p -> prev_hash b = hash p.

(** The digest of a block's own four fields, as the constructor computes
    it. *)
Definition content_digest (b : Block) : string :=
  hash (Block_init (index b) (timestamp b) (data b) (prev_hash b)).

Definition tamper_message (i : Z) : string :=
  "Block " +:+ int_repr i +:+ " has been tampered with".

(** The state after [print(s)]. *)
Definition printed (s : string) (st : State) : State :=
  mkState (self_chain st) (stdout st ++ [s]) (files st) (clock st) (ticks st).

(** A chain built by the constructor followed by one [create_block] per
    payload of [payloads]. *)
Definition build_chain (payloads : list pydict) : M unit :=
  PharmaBlockChain_init ;; for_each payloads create_block.

Definition genesis_data : pydict := [("Event", PyStr "Genesis Block")].

(** Indices count positions. *)
Definition indexed (c : list Block) : Prop :=
  forall (i : nat) (b : Block), c !! i = Some b -> index b = Z.of_nat i.

(** Two values are equal as mappings: the same items, dictionary by
    dictionary, whatever the order in which the keys were inserted. *)
Inductive val_equiv : pyval -> pyval -> Prop :=
| ve_same (v : pyval) : val_equiv v v
| ve_list (l1 l2 : list pyval) :
    Forall2 val_equiv l1 l2 -> val_equiv (PyList l1) (PyList l2)
| ve_dict (d1 d d2 : pydict) :
    Permutation d1 d ->
    Forall2 (fun kv kv' => fst kv = fst kv' /\ val_equiv (snd kv) (snd kv')) d d2 ->
    val_equiv (PyDict d1) (PyDict d2).

(** The lines [display_chain] prints for one block. *)
Definition block_lines (block : Block) : list string :=
  [String (chr 10) EmptyString +:+ "Block #" +:+ int_repr (index block);
   "Timestamp: " +:+ timestamp block;
   "Event: " +:+ py_str (dict_get (data block) "event" (PyStr "N/A"));
   "Batch ID: " +:+ py_str (dict_get (data block) "batch_id" (PyStr "N/A"));
   "Location: " +:+ py_str (dict_get (data block) "location" (PyStr "N/A"));
   "Destination: " +:+ py_str (dict_get (data block) "destination" (PyStr "N/A"));
   "Hash: " +:+ hash block;
   "Previous Hash: " +:+ prev_hash block].

Definition printed_all (lines : list string) (st : State) : State :=
  mkState (self_chain st) (stdout st ++ lines) (files st) (clock st) (ticks st).

(** ** Exporting: what is written *)

Definition header_row : string := csv_row ["Timestamp"; "Data"; "Hash"].

Definition block_row (block : Block) : string :=
  csv_row [timestamp block; json_dumps (PyDict (data block)); hash block].

(** The rows of a chain, one per block, in order. *)
Definition data_rows (c : list Block) : string :=
  fold_right (fun block acc => block_row block +:+ acc) EmptyString c.

(** The test [write_chain] makes on the destination before it writes. *)
Definition header_needed (file : option string) : bool :=
  match file with
  | None => true
  | Some content =>
      if String.eqb content EmptyString then true
      else negb (str_contains "Timestamp" (first_line content))
  end.

Definition set_files (f : gmap string string) (st : State) : State :=
  mkState (self_chain st) (stdout st) f (clock st) (ticks st).

(** The destination can be opened for appending: it exists, or it is absent
    and its name is a plain name. *)
Definition openable (st : State) (path : string) : Prop :=
  is_Some (files st !! path) \/ plain_name path = true.

(** [s] holds neither a line feed nor a carriage return. *)
Definition no_line_break (s : string) : bool :=
  negb (has_char 10 s) && negb (has_char 13 s).

(** ** Example data *)

Definition noon : string := "Mon Apr 28 12:00:00 2025".

Definition ex_genesis : Block := Block_init 0 noon genesis_data "0".
Definition ex_made : Block :=
  Block_init 1 noon (journey_event "Manufactured" "Factory A" "Distributor 1")
             (hash ex_genesis).
Definition ex_shipped : Block :=
  Block_init 2 noon (journey_event "Shipped" "Factory A" "Distributor 1")
             (hash ex_made).

(** [ex_made] after [ex_made.data["location"] = "Factory B"]: the payload,
    which [block_info] shares, has changed; the stored hash has not. *)
Definition ex_made_altered : Block :=
  let d := journey_event "Manufactured" "Factory B" "Distributor 1" in
  mkBlock 1 noon d (hash ex_genesis)
          [("Index", PyInt 1); ("Timestamp", PyStr noon); ("Data", PyDict d);
           ("Previous Hash", PyStr (hash ex_genesis))]
          (hash ex_made).

Definition state_of (c : list Block) : State :=
  mkState c [] ∅ (fun _ => noon) 0.

(** A block built with a previous hash that is not the tail's. *)
Definition ex_wrong (i : Z) : Block :=
  Block_init i noon (journey_event "Mugged after purchase" "Dark alleyway"
                                   "Albuquerque, New Mexico") "WRONG".

(** A state to run examples from: nothing printed, no files, no chain yet,
    and a clock stuck at one instant. *)
Definition initial_state : State :=
  mkState [] [] ∅ (fun _ => "Mon Apr 28 10:00:00 2025") 0.

Definition ex_payload_ab : pydict :=
  [("event", PyStr "Shipped"); ("batch_id", PyStr "B1");
   ("route", PyDict [("from", PyStr "Factory A"); ("to", PyStr "Distributor 1")])].
Definition ex_payload_ba : pydict :=
  [("route", PyDict [("to", PyStr "Distributor 1"); ("from", PyStr "Factory A")]);
   ("batch_id", PyStr "B1"); ("event", PyStr "Shipped")].

(** ** Further definitions *)

(** The shape of [hexdigest()] output: 64 characters among 0-9 and a-f. *)
Definition is_hex_char (c : ascii) : bool :=
  let n := ord c in
  ((48 <=? n) && (n <=? 57)) || ((97 <=? n) && (n <=? 102)).

(** Every character of [s] satisfies [P]. *)
Definition all_chars (P : ascii -> bool) (s : string) : bool :=
  forallb P (list_ascii_of_string s).

Definition is_hexdigest (s : string) : bool :=
  (String.length s =? 64)%nat && all_chars is_hex_char s.

(** The characters from space to tilde. *)
Definition printable_ascii (c : ascii) : bool :=
  let n := ord c in (32 <=? n) && (n <=? 126).

(** A block is as its constructor made it. *)
Definition as_constructed (b : Block) : Prop :=
  b = Block_init (index b) (timestamp b) (data b) (prev_hash b).

(** A chain with two broken links, at indices 2 and 3. *)
Definition ex_twice_broken : State :=
  state_of [ex_genesis; ex_made; ex_wrong 2; ex_wrong 3].

(** A block whose payload has two of the four displayed keys. *)
Definition ex_partial_block : Block :=
  Block_init 5 noon [("event", PyStr "Recalled"); ("batch_id", PyNone)] "0".

(** [write_chain(path)] called [n] times in a row. *)
Fixpoint export_times (n : nat) (path : string) : M unit :=
  match n with
  | O => ret tt
  | S k => write_chain path ;; export_times k path
  end.

(** [s * n] *)
Fixpoint repeat_text (n : nat) (s : string) : string :=
  match n with
  | O => EmptyString
  | S k => s +:+ repeat_text k s
  end.

(** ** The April draft, [Spring2ProgressApril14.py]

    Its [Block] class is the one of [main.py]; its [validation] makes the
    comparison of [main.py] twice, with two messages. *)

Module Spring2.

Fixpoint validation_loop (indices : list Z) : M bool :=
  match indices with
  | [] => ret true
  | i :: rest =>
      c <- get_chain ;;
      current_block <- list_getitem c i ;;
      previous_block <- list_getitem c (i - 1) ;;
      if negb (String.eqb (prev_hash current_block) (hash previous_block))
      then print ("Block " +:+ int_repr i +:+ " has been tampered with") ;;
           ret false
      else if negb (String.eqb (prev_hash current_block) (hash previous_block))
      then print ("Block " +:+ int_repr i +:+ "'s previous hash does not match") ;;
           ret false
      else validation_loop rest
  end.

Definition validation : M bool :=
  c <- get_chain ;;
  validation_loop (py_range 1 (len c)).

End Spring2.

(** ** The March draft, [Sprint1ProgressMar31.py] *)

Module Sprint1.

Record MyCoinBlock := mkMyCoinBlock {
  previous_block_hash : string;
  transaction_list : list string;
  block_data : string;
  block_hash : string
}.

(** [MyCoinBlock(previous_block_hash, transaction_list)] *)
Definition MyCoinBlock_init (previous_block_hash : string)
    (transaction_list : list string) : MyCoinBlock :=
  let block_data := join " - " transaction_list +:+ " - " +:+ previous_block_hash in
  mkMyCoinBlock previous_block_hash transaction_list block_data
                (SHA256.hexdigest (str_encode block_data)).

(** [chain[-1]] *)
Definition last_block (chain : list MyCoinBlock) : result MyCoinBlock :=
  match chain with
  | [] => Raise IndexError
  | b :: rest => Return (List.last rest b)
  end.

(** [generate_genesis_block], on the list [self.chain]. *)
Definition generate_genesis_block (chain : list MyCoinBlock) : list MyCoinBlock :=
  chain ++ [MyCoinBlock_init "0" ["Genesis Block"]].

(** [BlockChain()] *)
Definition BlockChain_init : list MyCoinBlock := generate_genesis_block [].

Definition create_transaction_block (chain : list MyCoinBlock)
    (transaction_list : list string) : result (list MyCoinBlock) :=
  match last_block chain with
  | Return last => Return (chain ++ [MyCoinBlock_init (block_hash last) transaction_list])
  | Raise e => Raise e
  end.

(** The constructor followed by one [create_transaction_block] per list. *)
Fixpoint create_all (chain : list MyCoinBlock) (lists : list (list string))
  : result (list MyCoinBlock) :=
  match lists with
  | [] => Return chain
  | txs :: rest =>
      match create_transaction_block chain txs with
      | Return chain' => create_all chain' rest
      | Raise e => Raise e
      end
  end.

End Sprint1.

(** Each block carries the hash of the block before it. *)
Definition coin_links_hold (c : list Sprint1.MyCoinBlock) : Prop :=
  forall (i : nat) (b p : Sprint1.MyCoinBlock),
    c !! S i = Some b -> c !! i = Some p ->
    Sprint1.previous_block_hash b = Sprint1.block_hash p.

(** * Theorems *)

(** ** Test vectors of the library models *)

Example sha256_constants :
  List.length SHA256.K = 64%nat /\ List.length SHA256.IV = 8%nat /\
  nth 0 SHA256.K 0 = 0x428a2f98 /\ nth 63 SHA256.K 0 = 0xc67178f2 /\
  nth 0 SHA256.IV 0 = 0x6a09e667 /\ nth 7 SHA256.IV 0 = 0x5be0cd19.
Proof. repeat split; reflexivity. Qed.

Example sha256_empty :
  SHA256.hexdigest [] =
  "e3b0c44298fc1c149afbf4c8996fb92427ae41e4649b934ca495991b7852b855".
Proof. vm_compute. reflexivity. Qed.

Example sha256_abc :
  SHA256.hexdigest (str_encode "abc") =
  "ba7816bf8f01cfea414140de5dae2223b00361a396177a9cb410ff61f20015ad".
Proof. vm_compute. reflexivity. Qed.

Example sha256_two_blocks :
  SHA256.hexdigest
    (str_encode "abcdbcdecdefdefgefghfghighijhijkijkljklmklmnlmnomnopnopq") =
  "248d6a61d20638b8e5c026930c3e6039a33ce45964ff2167f6ecedd419db06c1".
Proof. vm_compute. reflexivity. Qed.

Example json_dumps_sorts_keys :
  json_dumps (PyDict [("event", PyStr "Shipped"); ("batch_id", PyStr "B1");
                      ("n", PyList [PyInt (-3); PyNone; PyBool true])]) =
  dq "{'batch_id': 'B1', 'event': 'Shipped', 'n': [-3, null, true]}".
Proof. vm_compute. reflexivity. Qed.

Example py_repr_dict :
  py_repr (PyDict [("event", PyStr "Shipped"); ("n", PyList [PyInt 7; PyNone])]) =
  "{'event': 'Shipped', 'n': [7, None]}".
Proof. vm_compute. reflexivity. Qed.

Example csv_row_quotes :
  csv_row ["Mon Apr 28 10:00:00 2025"; dq "{'a': 'b'}"; "ff"] =
  "Mon Apr 28 10:00:00 2025," +:+ dq "'{''a'': ''b''}'" +:+ ",ff" +:+ CRLF.
Proof. vm_compute. reflexivity. Qed.

(** The script of [main.py], run from [initial_state]: eight blocks, the
    ninth appended with a wrong previous hash. *)
Example main_run :
  let r := main initial_state in
  fst r = Return false /\
  List.length (self_chain (snd r)) = 9%nat /\
  List.last (stdout (snd r)) EmptyString =
    String (chr 10) EmptyString +:+ "Blockchain Validity: False" /\
  existsb (String.eqb "Block 8 has been tampered with") (stdout (snd r)) = true.
Proof. vm_compute. repeat split; reflexivity. Qed.

(** ** Lists, ranges and indexing *)

Lemma len_app {A} (l1 l2 : list A) : len (l1 ++ l2) = len l1 + len l2.
Proof. unfold len. rewrite List.length_app. lia. Qed.

Lemma len_nonneg {A} (l : list A) : 0 <= len l.
Proof. unfold len. lia. Qed.

Lemma py_range_empty (a b : Z) : b <= a -> py_range a b = [].
Proof.
  intros H. unfold py_range.
  replace (Z.to_nat (b - a)) with O by lia. reflexivity.
Qed.

Lemma py_range_cons (a b : Z) : a < b -> py_range a b = a :: py_range (a + 1) b.
Proof.
  intros H. unfold py_range.
  replace (Z.to_nat (b - a)) with (S (Z.to_nat (b - (a + 1)))) by lia.
  cbn [seq map]. f_equal; [lia|].
  rewrite <- seq_shift, map_map.
  apply map_ext. intros k. lia.
Qed.

Lemma list_getitem_at {A} (l : list A) (i : Z) (x : A) (st : State) :
  0 <= i -> l !! Z.to_nat i = Some x -> list_getitem l i st = (Return x, st).
Proof.
  intros Hi Hx. unfold list_getitem.
  assert (Hlt : i < len l).
  { apply lookup_lt_Some in Hx. unfold len. lia. }
  cbv zeta. rewrite !(proj2 (Z.ltb_ge i 0)) by lia.
  rewrite (proj2 (Z.leb_gt (len l) i)) by lia.
  cbn [orb]. rewrite Hx. reflexivity.
Qed.

Lemma list_getitem_middle {A} (pre post : list A) (x : A) (i : Z) (st : State) :
  i = len pre -> list_getitem (pre ++ x :: post) i st = (Return x, st).
Proof.
  intros ->. apply list_getitem_at; [apply len_nonneg|].
  unfold len. rewrite Nat2Z.id.
  rewrite lookup_app_r by lia. rewrite Nat.sub_diag. reflexivity.
Qed.

Lemma list_getitem_last {A} (c : list A) (t : A) (st : State) :
  list_getitem (c ++ [t]) (-1) st = (Return t, st).
Proof.
  unfold list_getitem. cbn [Z.ltb Z.compare].
  rewrite len_app. change (len [t]) with 1.
  pose proof (len_nonneg c) as Hc.
  cbv zeta.
  rewrite (proj2 (Z.ltb_ge (-1 + (len c + 1)) 0)) by lia.
  rewrite (proj2 (Z.leb_gt (len c + 1) (-1 + (len c + 1)))) by lia.
  cbn [orb].
  replace (Z.to_nat (-1 + (len c + 1))) with (List.length c) by (unfold len; lia).
  rewrite lookup_app_r by lia. rewrite Nat.sub_diag. reflexivity.
Qed.

Lemma list_getitem_empty {A} (i : Z) (st : State) :
  list_getitem (@nil A) i st = (Raise IndexError, st).
Proof.
  unfold list_getitem. change (len (@nil A)) with 0. cbv zeta.
  destruct (Z.ltb_spec i 0) as [E|E].
  - rewrite (proj2 (Z.ltb_lt (i + 0) 0)) by lia. reflexivity.
  - rewrite (proj2 (Z.ltb_ge i 0)) by lia.
    rewrite (proj2 (Z.leb_le 0 i)) by lia. reflexivity.
Qed.

(** ** The validation loop *)

Lemma validation_loop_walk (rest pre : list Block) (prev : Block)
    (so : list string) (f : gmap string string) (cl : nat -> string) (tk : nat) :
  let c := pre ++ prev :: rest in
  validation_loop (py_range (len pre + 1) (len c)) (mkState c so f cl tk) =
  match first_bad_link (len pre + 1) prev rest with
  | None => (Return true, mkState c so f cl tk)
  | Some i => (Return false, mkState c (so ++ [tamper_message i]) f cl tk)
  end.
Proof.
  revert pre prev. induction rest as [|b rest IH]; intros pre prev c; subst c.
  - rewrite py_range_empty; [reflexivity|].
    rewrite len_app. change (len [prev]) with 1. lia.
  - rewrite py_range_cons.
    2:{ rewrite len_app. change (len (prev :: b :: rest)) with (Z.of_nat (S (S (List.length rest)))). lia. }
    cbn [validation_loop first_bad_link]. unfold bind at 1. unfold get_chain.
    cbn [self_chain]. unfold bind at 1.
    replace (pre ++ prev :: b :: rest) with ((pre ++ [prev]) ++ b :: rest)
      by (rewrite <- app_assoc; reflexivity).
    rewrite list_getitem_middle
      by (rewrite len_app; reflexivity).
    unfold bind at 1.
    replace ((pre ++ [prev]) ++ b :: rest) with (pre ++ prev :: b :: rest)
      by (rewrite <- app_assoc; reflexivity).
    rewrite list_getitem_middle by lia.
    destruct (String.eqb (prev_hash b) (hash prev)); cbn [negb].
    + specialize (IH (pre ++ [prev]) b). cbv zeta in IH.
      rewrite len_app in IH. change (len [prev]) with 1 in IH.
      rewrite <- app_assoc in IH. exact IH.
    + reflexivity.
Qed.

(** [validation] computes [first_broken]: it answers [True] and leaves the
    state alone when no link is broken, and otherwise prints the index of
    the first broken link and answers [False]. *)
Lemma validation_spec (st : State) :
  validation st =
  match first_broken (self_chain st) with
  | None => (Return true, st)
  | Some i => (Return false, printed (tamper_message i) st)
  end.
Proof.
  destruct st as [c so f cl tk]. unfold validation, bind, get_chain, printed.
  cbn [self_chain stdout files clock ticks].
  destruct c as [|b rest].
  - reflexivity.
  - exact (validation_loop_walk rest [] b so f cl tk).
Qed.

Lemma first_bad_link_None (rest : list Block) (prev : Block) (i : Z) :
  first_bad_link i prev rest = None <-> links_hold (prev :: rest).
Proof.
  revert prev i. induction rest as [|b rest IH]; intros prev i; cbn [first_bad_link].
  - split; [|reflexivity]. intros _ [|k] x p Hx Hp; discriminate.
  - destruct (String.eqb_spec (prev_hash b) (hash prev)) as [E|E].
    + rewrite IH. split.
      * intros H [|k] x p Hx Hp.
        -- cbn in Hx, Hp. congruence.
        -- exact (H k x p Hx Hp).
      * intros H k x p Hx Hp. exact (H (S k) x p Hx Hp).
    + split; [discriminate|]. intros H. exfalso. apply E.
      exact (H O b prev eq_refl eq_refl).
Qed.

Lemma first_broken_None (c : list Block) :
  first_broken c = None <-> links_hold c.
Proof.
  destruct c as [|b rest].
  - split; [|reflexivity]. intros _ k x p Hx; discriminate.
  - apply first_bad_link_None.
Qed.

(** What [first_bad_link] answers is the least index with a broken link. *)
Lemma first_bad_link_Some (rest : list Block) (prev : Block) (i n : Z) :
  first_bad_link i prev rest = Some n ->
  exists k : nat, n = i + Z.of_nat k /\
    (exists b p, (prev :: rest) !! S k = Some b /\ (prev :: rest) !! k = Some p /\
                 prev_hash b <> hash p) /\
    (forall (j : nat) b p, (j < k)%nat ->
       (prev :: rest) !! S j = Some b -> (prev :: rest) !! j = Some p ->
       prev_hash b = hash p).
Proof.
  revert prev i. induction rest as [|b rest IH]; intros prev i; cbn [first_bad_link].
  - discriminate.
  - destruct (String.eqb_spec (prev_hash b) (hash prev)) as [E|E].
    + intros H. destruct (IH b (i + 1) H) as (k & -> & (x & p & Hx & Hp & Hne) & Hlt).
      exists (S k). split; [lia|]. split.
      * exists x, p. auto.
      * intros [|j] y q Hj Hy Hq.
        -- cbn in Hy, Hq. congruence.
        -- apply (Hlt j y q); [lia | exact Hy | exact Hq].
    + intros [= <-]. exists O. split; [lia|]. split.
      * exists b, prev. auto.
      * intros j y q Hj. lia.
Qed.

Lemma last_cons_default {A} (rest : list A) (x d : A) :
  List.last (x :: rest) d = List.last rest x.
Proof.
  revert x d. induction rest as [|y r IH]; intros x d; [reflexivity|].
  transitivity (List.last r y).
  - change (List.last (x :: y :: r) d) with (List.last (y :: r) d). apply IH.
  - symmetry. apply IH.
Qed.

Lemma first_bad_link_snoc (rest : list Block) (prev b : Block) (i : Z) :
  first_bad_link i prev rest = None ->
  first_bad_link i prev (rest ++ [b]) =
  if String.eqb (prev_hash b) (hash (List.last rest prev))
  then None else Some (i + len rest).
Proof.
  revert prev i. induction rest as [|x rest IH]; intros prev i; cbn [first_bad_link app].
  - intros _. change (len []) with 0. rewrite Z.add_0_r. reflexivity.
  - destruct (String.eqb (prev_hash x) (hash prev)); [|discriminate].
    intros H. rewrite (IH x (i + 1) H).
    replace (List.last (x :: rest) prev) with (List.last rest x).
    2:{ symmetry. apply last_cons_default. }
    replace (i + 1 + len rest) with (i + len (x :: rest))
      by (unfold len; cbn [List.length]; lia).
    reflexivity.
Qed.

Lemma first_broken_snoc (c : list Block) (t b : Block) :
  first_broken (c ++ [t]) = None ->
  first_broken ((c ++ [t]) ++ [b]) =
  if String.eqb (prev_hash b) (hash t) then None else Some (len (c ++ [t])).
Proof.
  destruct c as [|g rest]; cbn [app first_broken].
  - intros _. cbn [first_bad_link]. reflexivity.
  - intros H. rewrite (first_bad_link_snoc _ _ _ _ H).
    rewrite List.last_last.
    replace (1 + len (rest ++ [t])) with (len (g :: rest ++ [t]))
      by (unfold len; cbn [List.length]; lia).
    reflexivity.
Qed.

(** ** Growing the chain *)

Lemma retrieve_block_last (st : State) (c : list Block) (t : Block) :
  self_chain st = c ++ [t] -> retrieve_block st = (Return t, st).
Proof.
  intros H. unfold retrieve_block, bind, get_chain. rewrite H.
  apply list_getitem_last.
Qed.

Lemma create_block_spec (st : State) (c : list Block) (t : Block) (d : pydict) :
  self_chain st = c ++ [t] ->
  create_block d st =
  (Return tt,
   mkState ((c ++ [t]) ++ [Block_init (index t + 1) (clock st (ticks st)) d (hash t)])
           (stdout st) (files st) (clock st) (S (ticks st))).
Proof.
  intros H. unfold create_block. unfold bind at 1.
  rewrite (retrieve_block_last st c t H).
  destruct st as [sc so f cl tk]. cbn in H. subst sc. reflexivity.
Qed.

Section GrowInvariant.

(** A property of chains that every block made by [create_block] keeps. *)
Variable P : list Block -> Prop.
Hypothesis P_step : forall c t now d,
  P (c ++ [t]) -> P ((c ++ [t]) ++ [Block_init (index t + 1) now d (hash t)]).

Lemma for_each_create_block (payloads : list pydict) :
  forall (st : State) (c : list Block) (t : Block),
    self_chain st = c ++ [t] -> P (c ++ [t]) ->
    exists st' more,
      for_each payloads create_block st = (Return tt, st') /\
      self_chain st' = (c ++ [t]) ++ more /\
      List.length more = List.length payloads /\
      P (self_chain st') /\
      stdout st' = stdout st /\ files st' = files st /\ clock st' = clock st.
Proof.
  induction payloads as [|d ds IH]; intros st c t Hc HP.
  - exists st, []. rewrite app_nil_r. rewrite Hc. repeat split; auto.
  - cbn [for_each]. unfold bind at 1.
    rewrite (create_block_spec st c t d Hc).
    set (b := Block_init (index t + 1) (clock st (ticks st)) d (hash t)).
    set (st1 := mkState ((c ++ [t]) ++ [b]) (stdout st) (files st) (clock st)
                        (S (ticks st))).
    destruct (IH st1 (c ++ [t]) b eq_refl (P_step c t _ d HP))
      as (st' & more & Hrun & Hch & Hlen & HP' & Hso & Hf & Hcl).
    exists st', (b :: more). rewrite Hrun. repeat split; auto.
    + rewrite Hch. rewrite <- (app_assoc (c ++ [t]) [b] more). reflexivity.
    + cbn [List.length]. lia.
Qed.

End GrowInvariant.

Lemma PharmaBlockChain_init_spec (st : State) :
  PharmaBlockChain_init st =
  (Return tt,
   mkState [Block_init 0 (clock st (ticks st)) genesis_data "0"]
           (stdout st) (files st) (clock st) (S (ticks st))).
Proof. destruct st. reflexivity. Qed.

Lemma indexed_step (c : list Block) (t : Block) (now : string) (d : pydict) :
  indexed (c ++ [t]) ->
  indexed ((c ++ [t]) ++ [Block_init (index t + 1) now d (hash t)]).
Proof.
  intros H i b Hb.
  destruct (Nat.lt_ge_cases i (List.length (c ++ [t]))) as [Hlt|Hge].
  - rewrite lookup_app_l in Hb by exact Hlt. exact (H i b Hb).
  - rewrite lookup_app_r in Hb by exact Hge.
    destruct (i - List.length (c ++ [t]))%nat as [|k] eqn:E; [|destruct k; discriminate].
    cbn in Hb. injection Hb as <-. cbn [index Block_init].
    assert (Ht : (c ++ [t]) !! List.length c = Some t).
    { rewrite lookup_app_r by lia. rewrite Nat.sub_diag. reflexivity. }
    rewrite (H _ t Ht). rewrite List.length_app in *. cbn [List.length] in *. lia.
Qed.

Lemma linked_step (c : list Block) (t : Block) (now : string) (d : pydict) :
  first_broken (c ++ [t]) = None ->
  first_broken ((c ++ [t]) ++ [Block_init (index t + 1) now d (hash t)]) = None.
Proof.
  intros H. rewrite (first_broken_snoc c t _ H).
  cbn [prev_hash Block_init]. rewrite String.eqb_refl. reflexivity.
Qed.

(** What the constructor followed by appends leaves behind. *)
Lemma build_chain_spec (payloads : list pydict) (st : State) :
  exists st' rest,
    build_chain payloads st = (Return tt, st') /\
    self_chain st' = Block_init 0 (clock st (ticks st)) genesis_data "0" :: rest /\
    List.length rest = List.length payloads /\
    first_broken (self_chain st') = None /\
    indexed (self_chain st') /\
    stdout st' = stdout st /\ files st' = files st.
Proof.
  unfold build_chain. unfold bind at 1. rewrite PharmaBlockChain_init_spec.
  set (g := Block_init 0 (clock st (ticks st)) genesis_data "0").
  set (st1 := mkState [g] (stdout st) (files st) (clock st) (S (ticks st))).
  destruct (for_each_create_block
              (fun c => first_broken c = None /\ indexed c)
              (fun c t now d H =>
                 conj (linked_step c t now d (proj1 H)) (indexed_step c t now d (proj2 H)))
              payloads st1 [] g eq_refl) as (st' & more & Hrun & Hch & Hlen & [HL HI] & Hso & Hf & _).
  { split; [reflexivity|]. intros [|i] b Hb; [|discriminate].
    cbn in Hb. injection Hb as <-. reflexivity. }
  exists st', more. rewrite Hrun. repeat split; auto.
Qed.

(** ** C1: what validation checks *)

(** C1 (as amended). [validation] performs the link-continuity check and
    nothing else: it answers [True] exactly when every block from the second
    on carries the stored hash of the block before it, [False] exactly when
    some block does not, it never raises, it leaves the chain as it was, and
    its verdict is the same for any two chains that agree on the stored
    [prev_hash] and [hash] fields, whatever their other fields hold. *)
Theorem validation_checks_links_only (st : State) :
  (fst (validation st) = Return true <-> links_hold (self_chain st)) /\
  (fst (validation st) = Return false <->
     exists (i : nat) (b p : Block),
       self_chain st !! S i = Some b /\ self_chain st !! i = Some p /\
       prev_hash b <> hash p) /\
  self_chain (snd (validation st)) = self_chain st /\
  (forall st' : State,
     map prev_hash (self_chain st') = map prev_hash (self_chain st) ->
     map hash (self_chain st') = map hash (self_chain st) ->
     fst (validation st') = fst (validation st)).
Proof.
  assert (Hext : forall c c' : list Block,
             map prev_hash c' = map prev_hash c -> map hash c' = map hash c ->
             first_broken c' = first_broken c).
  { intros c c' Hp Hh. destruct c as [|b r], c' as [|b' r']; try discriminate; auto.
    cbn [first_broken]. cbn [map] in Hp, Hh.
    injection Hp as _ Hp. injection Hh as Hb Hh.
    generalize 1. revert b b' r' Hb Hp Hh.
    induction r as [|x r IH]; intros b b' [|x' r'] Hb Hp Hh z; try discriminate; auto.
    cbn [first_bad_link]. cbn [map] in Hp, Hh.
    injection Hp as Hx Hp. injection Hh as Hx' Hh.
    rewrite Hx, Hb. destruct (String.eqb (prev_hash x) (hash b)); auto. }
  rewrite !validation_spec.
  destruct (first_broken (self_chain st)) as [n|] eqn:E.
  - repeat split; try discriminate; auto.
    + intros H. apply first_broken_None in H. congruence.
    + intros _. destruct (self_chain st) as [|g rest]; [discriminate|].
      cbn [first_broken] in E.
      destruct (first_bad_link_Some _ _ _ _ E) as (k & _ & (b & p & Hb & Hp & Hne) & _).
      exists k, b, p. auto.
    + intros st' Hp Hh. rewrite validation_spec, (Hext _ _ Hp Hh), E. reflexivity.
  - apply first_broken_None in E as HL. repeat split; auto; try discriminate.
    + intros (i & b & p & Hb & Hp & Hne). exfalso. apply Hne. exact (HL i b p Hb Hp).
    + intros st' Hp Hh. rewrite validation_spec, (Hext _ _ Hp Hh), E. reflexivity.
Qed.

(** C1 (witness): two three-block chains that agree on the stored hashes
    get the same verdict although the payload of one block differs. *)
Lemma validation_checks_links_only_witness :
  fst (validation (state_of [ex_genesis; ex_made_altered; ex_shipped])) =
  fst (validation (state_of [ex_genesis; ex_made; ex_shipped])).
Proof.
  apply (validation_checks_links_only
           (state_of [ex_genesis; ex_made; ex_shipped])); reflexivity.
Defined.

(** C1 (counterexample). In the chain genesis, made, shipped, the payload of
    the second block is altered after construction and its stored hash is
    left as it was, so every link is still consistent. The stored hash no
    longer is the digest of the block's content, and [validation] answers
    [True]. *)
Lemma validation_accepts_altered_block :
  let st := state_of [ex_genesis; ex_made_altered; ex_shipped] in
  hash ex_made_altered <> content_digest ex_made_altered /\
  hash ex_made_altered <> calcHash ex_made_altered /\
  prev_hash ex_shipped = hash ex_made_altered /\
  validation st = (Return true, st).
Proof.
  cbv zeta. split; [|split; [|split]].
  - vm_compute. discriminate.
  - vm_compute. discriminate.
  - reflexivity.
  - vm_compute. reflexivity.
Qed.

(** ** C2: a block with a wrong previous hash at the tail *)

(** C2 (as amended). Take a chain of N blocks on which [validation] answers
    [True], and append a block whose [prev_hash] is not the stored hash of
    the tail. Then [validation] returns the boolean [False] as an ordinary
    result, prints one line that names the index N of the appended block,
    and leaves the chain and every block in it as they were; N is the first
    index whose link is broken. The index is printed, not returned. *)
Theorem tampered_tail_detected (st : State) (c : list Block) (t b : Block) :
  self_chain st = c ++ [t] ->
  fst (validation st) = Return true ->
  prev_hash b <> hash t ->
  let N := List.length (c ++ [t]) in
  let st1 := snd (chain_append b st) in
  self_chain st1 = (c ++ [t]) ++ [b] /\
  self_chain st1 !! N = Some b /\
  validation st1 = (Return false, printed (tamper_message (Z.of_nat N)) st1) /\
  self_chain (snd (validation st1)) = self_chain st1 /\
  stdout (snd (validation st1)) =
    stdout st ++ ["Block " +:+ int_repr (Z.of_nat N) +:+ " has been tampered with"] /\
  (forall (i : nat) (x p : Block),
     (S i < N)%nat ->
     self_chain st1 !! S i = Some x -> self_chain st1 !! i = Some p ->
     prev_hash x = hash p).
Proof.
  intros Hc Hv Hne N st1.
  assert (Hc1 : self_chain st1 = (c ++ [t]) ++ [b]).
  { subst st1. destruct st as [sc so f cl tk]. cbn in Hc. subst sc. reflexivity. }
  assert (Hok : first_broken (c ++ [t]) = None).
  { rewrite validation_spec, Hc in Hv.
    destruct (first_broken (c ++ [t])); [discriminate | reflexivity]. }
  assert (Hv1 : validation st1 = (Return false, printed (tamper_message (Z.of_nat N)) st1)).
  { rewrite validation_spec, Hc1, (first_broken_snoc c t b Hok).
    destruct (String.eqb_spec (prev_hash b) (hash t)) as [E|_]; [contradiction|].
    reflexivity. }
  split; [exact Hc1|]. split.
  { rewrite Hc1. subst N. rewrite lookup_app_r by lia.
    rewrite Nat.sub_diag. reflexivity. }
  split; [exact Hv1|]. rewrite Hv1. split; [reflexivity|]. split.
  { subst st1. destruct st. reflexivity. }
  intros i x p Hi Hx Hp. rewrite Hc1 in Hx, Hp.
  rewrite lookup_app_l in Hx by exact Hi.
  rewrite lookup_app_l in Hp by (subst N; lia).
  apply first_broken_None in Hok. exact (Hok i x p Hx Hp).
Qed.

(** C2 (witness): genesis and one block, then a block whose previous hash is
    the string WRONG; the index printed is 2. *)
Lemma tampered_tail_detected_witness :
  let st := state_of [ex_genesis; ex_made] in
  let st1 := snd (chain_append (ex_wrong 2) st) in
  fst (validation st) = Return true /\
  prev_hash (ex_wrong 2) <> hash ex_made /\
  validation st1 = (Return false, printed (tamper_message 2) st1).
Proof.
  cbv zeta. split; [reflexivity|]. split; [vm_compute; discriminate|].
  apply (tampered_tail_detected (state_of [ex_genesis; ex_made])
           [ex_genesis] ex_made (ex_wrong 2)).
  - reflexivity.
  - reflexivity.
  - vm_compute. discriminate.
Defined.

(** C2 (counterexample). What [validation] returns is the bare boolean: a
    chain whose first broken link is at index 1 and a chain whose first
    broken link is at index 2 produce the same returned value, so the
    offending index is no part of it. *)
Lemma validation_returns_no_index :
  let st1 := state_of [ex_genesis; ex_wrong 1] in
  let st2 := state_of [ex_genesis; ex_made; ex_wrong 2] in
  first_broken (self_chain st1) = Some 1 /\
  first_broken (self_chain st2) = Some 2 /\
  fst (validation st1) = Return false /\
  fst (validation st2) = Return false /\
  fst (validation st1) = fst (validation st2) /\
  stdout (snd (validation st1)) = ["Block 1 has been tampered with"] /\
  stdout (snd (validation st2)) = ["Block 2 has been tampered with"].
Proof. vm_compute. repeat split; reflexivity. Qed.

(** ** C3: a freshly built chain is valid *)

(** C3. After the constructor and N appends with any payloads, the chain has
    N + 1 blocks, [validation] returns [True] without printing or changing
    anything, and for every i in 1..N the block at i carries the stored hash
    of the block at i - 1. *)
Theorem fresh_chain_is_valid (payloads : list pydict) (st : State) :
  exists st' : State,
    build_chain payloads st = (Return tt, st') /\
    List.length (self_chain st') = S (List.length payloads) /\
    validation st' = (Return true, st') /\
    forall i : nat, (1 <= i <= List.length payloads)%nat ->
      exists b p : Block,
        self_chain st' !! i = Some b /\ self_chain st' !! (i - 1)%nat = Some p /\
        prev_hash b = hash p.
Proof.
  destruct (build_chain_spec payloads st)
    as (st' & rest & Hrun & Hch & Hlen & Hok & _ & _ & _).
  exists st'. split; [exact Hrun|].
  assert (HN : List.length (self_chain st') = S (List.length payloads)).
  { rewrite Hch. cbn [List.length]. lia. }
  split; [exact HN|]. split.
  { rewrite validation_spec, Hok. reflexivity. }
  intros i [H1 H2]. destruct i as [|k]; [lia|].
  destruct (lookup_lt_is_Some_2 (self_chain st') (S k)) as [b Hb]; [lia|].
  destruct (lookup_lt_is_Some_2 (self_chain st') k) as [p Hp]; [lia|].
  exists b, p. replace (S k - 1)%nat with k by lia.
  apply first_broken_None in Hok. repeat split; auto. exact (Hok k b p Hb Hp).
Qed.

(** ** Canonical order of dictionary items *)

Lemma ascii_compare_N (a b : ascii) :
  Ascii.compare a b = N.compare (N_of_ascii a) (N_of_ascii b).
Proof. reflexivity. Qed.

Lemma string_compare_cons (a b : ascii) (s t : string) :
  String.compare (String a s) (String b t) =
  match N.compare (N_of_ascii a) (N_of_ascii b) with
  | Eq => String.compare s t
  | o => o
  end.
Proof. cbn [String.compare]. rewrite ascii_compare_N. reflexivity. Qed.

Lemma string_leb_trans (a b c : string) :
  String.leb a b = true -> String.leb b c = true -> String.leb a c = true.
Proof.
  unfold String.leb. revert b c.
  induction a as [|x a IH]; intros [|y b] [|z c]; cbn [String.compare]; auto;
    try discriminate.
  change (match String.compare (String x a) (String y b) with Gt => false | _ => true end = true ->
          match String.compare (String y b) (String z c) with Gt => false | _ => true end = true ->
          match String.compare (String x a) (String z c) with Gt => false | _ => true end = true).
  rewrite !string_compare_cons.
  destruct (N.compare_spec (N_of_ascii x) (N_of_ascii y)) as [E1|E1|E1];
    destruct (N.compare_spec (N_of_ascii y) (N_of_ascii z)) as [E2|E2|E2];
    destruct (N.compare_spec (N_of_ascii x) (N_of_ascii z)) as [E3|E3|E3];
    try discriminate; try lia; auto.
  apply IH.
Qed.

Section InsertItem.
Context {A : Type}.
Implicit Types (x y : string * A) (l : list (string * A)).

Lemma insert_item_comm x y l :
  fst x <> fst y ->
  insert_item x (insert_item y l) = insert_item y (insert_item x l).
Proof.
  intros Hne. induction l as [|z l IH]; cbn [insert_item].
  - destruct (String.leb (fst x) (fst y)) eqn:Exy,
             (String.leb (fst y) (fst x)) eqn:Eyx; auto.
    + exfalso. apply Hne. apply String.leb_antisym; assumption.
    + destruct (String.leb_total (fst x) (fst y)); congruence.
  - destruct (String.leb (fst y) (fst z)) eqn:Eyz,
             (String.leb (fst x) (fst z)) eqn:Exz; cbn [insert_item];
      rewrite ?Eyz, ?Exz;
      destruct (String.leb (fst x) (fst y)) eqn:Exy,
               (String.leb (fst y) (fst x)) eqn:Eyx; auto;
      try (exfalso; apply Hne; apply String.leb_antisym; assumption);
      try (destruct (String.leb_total (fst x) (fst y)); congruence);
      try (rewrite (string_leb_trans _ _ _ Exy Eyz) in Exz; discriminate);
      try (rewrite (string_leb_trans _ _ _ Eyx Exz) in Eyz; discriminate);
      try (f_equal; exact IH).
Qed.

Lemma sorted_items_perm l1 l2 :
  Permutation l1 l2 -> NoDup (map fst l1) -> sorted_items l1 = sorted_items l2.
Proof.
  unfold sorted_items. induction 1 as [|x l1 l2 HP IH|x y l|l1 l2 l3 HP1 IH1 HP2 IH2];
    intros Hnd; cbn [fold_right map] in *.
  - reflexivity.
  - f_equal. apply IH. apply NoDup_cons_1_2 in Hnd. exact Hnd.
  - apply insert_item_comm. apply NoDup_cons_1_1 in Hnd.
    intros E. apply Hnd. rewrite E. left.
  - rewrite IH1 by exact Hnd. apply IH2.
    pose proof (Permutation_map fst HP1) as HPm. rewrite <- HPm. exact Hnd.
Qed.

End InsertItem.

Lemma pyval_nested_ind (P : pyval -> Prop) :
  P PyNone -> (forall b, P (PyBool b)) -> (forall z, P (PyInt z)) ->
  (forall s, P (PyStr s)) ->
  (forall l, Forall P l -> P (PyList l)) ->
  (forall d, Forall (fun kv => P (snd kv)) d -> P (PyDict d)) ->
  forall v, P v.
Proof.
  intros HN HB HI HS HL HD. fix IH 1.
  intros [ | b | z | s | l | d];
    [exact HN | exact (HB b) | exact (HI z) | exact (HS s) | | ].
  - apply HL. induction l as [|x l IHl]; constructor; [apply IH | exact IHl].
  - apply HD. induction d as [|[k x] d IHd]; constructor; [apply IH | exact IHd].
Qed.

Lemma wf_val_list (l : list pyval) :
  wf_val (PyList l) <-> Forall wf_val l.
Proof.
  cbn [wf_val]. induction l as [|x l IH]; cbn [fold_right].
  - split; constructor.
  - rewrite IH. split.
    + intros [H1 H2]. constructor; assumption.
    + intros H. inversion H; subst. split; assumption.
Qed.

Lemma wf_val_dict (d : pydict) :
  wf_val (PyDict d) <-> NoDup (map fst d) /\ Forall (fun kv => wf_val (snd kv)) d.
Proof.
  cbn [wf_val]. apply and_iff_compat_l.
  induction d as [|x d IH]; cbn [fold_right].
  - split; constructor.
  - rewrite IH. split.
    + intros [H1 H2]. constructor; assumption.
    + intros H. inversion H; subst. split; assumption.
Qed.

Lemma json_dumps_dict_perm (d1 d2 : pydict) :
  NoDup (map fst d1) -> Permutation d1 d2 ->
  json_dumps (PyDict d1) = json_dumps (PyDict d2).
Proof.
  intros Hnd HP. cbn [json_dumps]. do 4 f_equal.
  apply sorted_items_perm.
  - apply Permutation_map. exact HP.
  - rewrite map_map. exact Hnd.
Qed.

Lemma Forall2_map_eq {A B} (R : A -> A -> Prop) (f g : A -> B) (l l' : list A) :
  Forall2 R l l' ->
  Forall (fun x => forall y, R x y -> f x = g y) l ->
  map f l = map g l'.
Proof.
  induction 1 as [|x y l l' Hxy HF IHF]; intros HA; [reflexivity|].
  inversion HA; subst. cbn [map]. f_equal; auto.
Qed.

Lemma Forall_modus_ponens {A} (P Q : A -> Prop) (l : list A) :
  Forall (fun x => P x -> Q x) l -> Forall P l -> Forall Q l.
Proof.
  induction 1 as [|x l Hx _ IHl]; intros HP; constructor;
    inversion HP; subst; auto.
Qed.

(** [json.dumps(..., sort_keys=True)] does not see the order of insertion. *)
Lemma json_dumps_equiv (v1 : pyval) :
  forall v2 : pyval, val_equiv v1 v2 -> wf_val v1 -> json_dumps v1 = json_dumps v2.
Proof.
  induction v1 as [ | b | z | s | l IH | d IH] using pyval_nested_ind;
    intros v2 H Hwf; inversion H as [|l1 l2 HF|d1 d' d2 HP HF]; subst;
    try reflexivity.
  - cbn [json_dumps]. do 3 f_equal.
    apply wf_val_list in Hwf.
    apply (Forall2_map_eq val_equiv); [exact HF|].
    apply (Forall_modus_ponens wf_val); [|exact Hwf].
    eapply Forall_impl; [exact IH|]. cbn beta. intros x Hx Hw y Hxy. auto.
  - apply wf_val_dict in Hwf. destruct Hwf as [Hnd Hwf].
    rewrite (json_dumps_dict_perm d d' Hnd HP).
    rewrite HP in IH. rewrite HP in Hwf.
    cbn [json_dumps]. do 5 f_equal.
    apply (Forall2_map_eq
             (fun kv kv' => fst kv = fst kv' /\ val_equiv (snd kv) (snd kv')));
      [exact HF|].
    apply (Forall_modus_ponens (fun kv => wf_val (snd kv))); [|exact Hwf].
    eapply Forall_impl; [exact IH|]. cbn beta.
    intros x Hx Hw y [Hk Hxy]. f_equal; auto.
Qed.

(** ** C4: the hash of a block *)

(** C4. The hash a block is constructed with is SHA-256 over the UTF-8
    bytes of the key-sorted JSON text of its four fields, hence a function of
    these four fields alone; and two blocks constructed with the same index,
    timestamp and previous hash, and with payloads that are equal as mappings
    but list their keys in different insertion orders, get the same hash. *)
Theorem block_hash_canonical :
  (forall (i : Z) (ts : string) (d : pydict) (ph : string),
     hash (Block_init i ts d ph) =
     SHA256.hexdigest (str_encode (json_dumps (PyDict
       [("Index", PyInt i); ("Timestamp", PyStr ts); ("Data", PyDict d);
        ("Previous Hash", PyStr ph)])))) /\
  (forall (i : Z) (ts : string) (d1 d2 : pydict) (ph : string),
     wf_val (PyDict d1) -> val_equiv (PyDict d1) (PyDict d2) ->
     hash (Block_init i ts d1 ph) = hash (Block_init i ts d2 ph)).
Proof.
  split; [reflexivity|].
  intros i ts d1 d2 ph Hwf He. unfold Block_init, calcHash. cbn [hash block_info].
  do 2 f_equal.
  apply json_dumps_equiv.
  - apply (ve_dict _ [("Index", PyInt i); ("Timestamp", PyStr ts);
                      ("Data", PyDict d1); ("Previous Hash", PyStr ph)]);
      [reflexivity|].
    repeat constructor. exact He.
  - apply wf_val_dict. split.
    + cbn [map fst]. refine (bool_decide_unpack _ _); reflexivity.
    + repeat (constructor; [first [exact I | exact Hwf]|]). constructor.
Qed.

(** C4 (witness): the same three items, inserted in two orders, with a
    nested dictionary whose keys are inserted in two orders as well. *)
Lemma block_hash_canonical_witness :
  ex_payload_ab <> ex_payload_ba /\
  hash (Block_init 1 noon ex_payload_ab "0") =
  hash (Block_init 1 noon ex_payload_ba "0").
Proof.
  split; [discriminate|].
  apply (proj2 block_hash_canonical 1 noon ex_payload_ab ex_payload_ba "0").
  - cbn. repeat split; refine (bool_decide_unpack _ _); reflexivity.
  - apply (ve_dict _ [("route", PyDict [("from", PyStr "Factory A");
                                        ("to", PyStr "Distributor 1")]);
                      ("batch_id", PyStr "B1"); ("event", PyStr "Shipped")]).
    + apply (Permutation_rev
               [("event", PyStr "Shipped"); ("batch_id", PyStr "B1");
                ("route", PyDict [("from", PyStr "Factory A");
                                  ("to", PyStr "Distributor 1")])]).
    + constructor; [split; [reflexivity|] | repeat constructor].
      apply (ve_dict _ [("to", PyStr "Distributor 1"); ("from", PyStr "Factory A")]).
      * apply perm_swap.
      * repeat constructor.
Defined.

(** ** C5: the genesis block *)

Example genesis_serialization :
  json_dumps (PyDict (block_info ex_genesis)) =
  dq "{'Data': {'Event': 'Genesis Block'}, 'Index': 0, 'Previous Hash': '0', 'Timestamp': 'Mon Apr 28 12:00:00 2025'}".
Proof. vm_compute. reflexivity. Qed.

Example genesis_hash :
  hash (Block_init 0 "Mon Apr 28 10:00:00 2025" genesis_data "0") =
  "299717a1f93cf239e18b153f591fb9292a1495ea8ff152d8a6bce3f91b0525ea".
Proof. vm_compute. reflexivity. Qed.

(** C5. In the state the constructor leaves, and in every state reached
    from it by appends, the first block has index 0, previous hash "0" and
    the payload with the single item Event: Genesis Block, and its stored
    hash is SHA-256 over the canonical serialization of its own index,
    timestamp, payload and previous hash. *)
Theorem genesis_invariants (payloads : list pydict) (st : State) :
  exists (st' : State) (g : Block) (rest : list Block),
    build_chain payloads st = (Return tt, st') /\
    self_chain st' = g :: rest /\
    List.length rest = List.length payloads /\
    index g = 0 /\
    prev_hash g = "0" /\
    data g = [("Event", PyStr "Genesis Block")] /\
    hash g = SHA256.hexdigest (str_encode (json_dumps (PyDict
               [("Index", PyInt (index g)); ("Timestamp", PyStr (timestamp g));
                ("Data", PyDict (data g)); ("Previous Hash", PyStr (prev_hash g))]))) /\
    hash g = calcHash g /\
    hash g = content_digest g.
Proof.
  destruct (build_chain_spec payloads st)
    as (st' & rest & Hrun & Hch & Hlen & _).
  exists st', (Block_init 0 (clock st (ticks st)) genesis_data "0"), rest.
  repeat split; auto.
Qed.

(** ** C6: appending *)

(** C6. On a chain whose last block is [t], [create_block(data)] returns
    normally and leaves the chain with exactly one more block at its end;
    that block has index [t.index + 1], the payload given, previous hash
    [t.hash], the clock reading as timestamp and the digest of these as
    hash. In every chain built by the constructor and appends, the block at
    position i has index i. *)
Theorem create_block_postcondition :
  (forall (st : State) (c : list Block) (t : Block) (d : pydict),
     self_chain st = c ++ [t] ->
     exists (st' : State) (b : Block),
       create_block d st = (Return tt, st') /\
       self_chain st' = self_chain st ++ [b] /\
       b = Block_init (index t + 1) (clock st (ticks st)) d (hash t) /\
       index b = index t + 1 /\ data b = d /\ prev_hash b = hash t /\
       timestamp b = clock st (ticks st) /\ hash b = calcHash b /\
       List.length (self_chain st') = S (List.length (self_chain st)) /\
       stdout st' = stdout st /\ files st' = files st) /\
  (forall (payloads : list pydict) (st : State),
     exists st' : State,
       build_chain payloads st = (Return tt, st') /\
       forall (i : nat) (b : Block),
         self_chain st' !! i = Some b -> index b = Z.of_nat i).
Proof.
  split.
  - intros st c t d Hc.
    eexists. exists (Block_init (index t + 1) (clock st (ticks st)) d (hash t)).
    split; [exact (create_block_spec st c t d Hc)|].
    cbn [self_chain stdout files]. rewrite Hc.
    repeat split; auto. rewrite !List.length_app. cbn [List.length]. lia.
  - intros payloads st.
    destruct (build_chain_spec payloads st)
      as (st' & rest & Hrun & _ & _ & _ & HI & _).
    exists st'. split; [exact Hrun | exact HI].
Qed.

(** C6 (witness): appending to the chain genesis, made. *)
Lemma create_block_postcondition_witness :
  exists (st' : State) (b : Block),
    create_block ex_payload_ab (state_of [ex_genesis; ex_made]) = (Return tt, st') /\
    self_chain st' = [ex_genesis; ex_made; b] /\
    index b = 2 /\ prev_hash b = hash ex_made.
Proof.
  destruct (proj1 create_block_postcondition
              (state_of [ex_genesis; ex_made]) [ex_genesis] ex_made ex_payload_ab
              eq_refl)
    as (st' & b & Hrun & Hch & _ & Hi & _ & Hp & _).
  exists st', b. repeat split; assumption.
Defined.

(** ** C7: the empty chain *)

(** C7 (as amended). On a chain with no blocks, [retrieve_block()] raises
    the built-in [IndexError] of the out-of-range access [self.chain[-1]],
    and so does [create_block], leaving the state as it was, while
    [validation()] does not fail: it returns [True]. On a chain that is not
    empty, [retrieve_block()] returns the last block. *)
Theorem empty_chain_behaviour :
  (forall st : State,
     self_chain st = [] ->
     retrieve_block st = (Raise IndexError, st) /\
     (forall d, create_block d st = (Raise IndexError, st)) /\
     validation st = (Return true, st)) /\
  (forall (st : State) (c : list Block) (t : Block),
     self_chain st = c ++ [t] -> retrieve_block st = (Return t, st)).
Proof.
  split.
  - intros st H.
    assert (HR : retrieve_block st = (Raise IndexError, st)).
    { unfold retrieve_block, bind, get_chain. rewrite H. apply list_getitem_empty. }
    split; [exact HR|]. split.
    + intros d. unfold create_block. unfold bind at 1. rewrite HR. reflexivity.
    + rewrite validation_spec, H. reflexivity.
  - exact retrieve_block_last.
Qed.

(** C7 (witness): the empty chain, and the chain genesis, made. *)
Lemma empty_chain_behaviour_witness :
  retrieve_block (state_of []) = (Raise IndexError, state_of []) /\
  retrieve_block (state_of [ex_genesis; ex_made]) =
    (Return ex_made, state_of [ex_genesis; ex_made]).
Proof.
  split.
  - apply (proj1 empty_chain_behaviour (state_of []) eq_refl).
  - apply (proj2 empty_chain_behaviour (state_of [ex_genesis; ex_made])
             [ex_genesis] ex_made eq_refl).
Defined.

(** C7 (counterexample). With no blocks in the chain, the exception that
    [retrieve_block()] raises is [IndexError], not an [EmptyChainError], and
    [validation()] raises nothing at all: it returns [True]. *)
Lemma empty_chain_raises_no_EmptyChainError :
  let st := state_of [] in
  retrieve_block st = (Raise IndexError, st) /\
  exn_name IndexError <> "EmptyChainError" /\
  validation st = (Return true, st).
Proof. cbv zeta. repeat split. discriminate. Qed.

(** ** C9: the two tail accessors *)

(** C9. On a chain that is not empty, the method [retrieve_block()] and the
    property [last_block] return the same block, the last one of the chain,
    and neither changes the state. *)
Theorem tail_accessors_agree (st : State) (c : list Block) (t : Block) :
  self_chain st = c ++ [t] ->
  retrieve_block st = (Return t, st) /\
  last_block st = (Return t, st) /\
  retrieve_block st = last_block st.
Proof.
  intros H.
  assert (HR : retrieve_block st = (Return t, st)) by exact (retrieve_block_last st c t H).
  assert (HL : last_block st = (Return t, st)).
  { unfold last_block, bind, get_chain. rewrite H. apply list_getitem_last. }
  rewrite HR, HL. auto.
Qed.

(** C9 (witness): the chain genesis, made, shipped. *)
Lemma tail_accessors_agree_witness :
  let st := state_of [ex_genesis; ex_made; ex_shipped] in
  retrieve_block st = (Return ex_shipped, st) /\
  last_block st = (Return ex_shipped, st) /\
  retrieve_block st = last_block st.
Proof.
  exact (tail_accessors_agree (state_of [ex_genesis; ex_made; ex_shipped])
           [ex_genesis; ex_made] ex_shipped eq_refl).
Defined.

(** ** C10: displaying the genesis block *)

Lemma display_block_spec (block : Block) (st : State) :
  display_block block st = (Return tt, printed_all (block_lines block) st).
Proof.
  destruct st as [c so f cl tk]. unfold display_block, printed_all, block_lines, bind, print.
  cbn [self_chain stdout files clock ticks].
  repeat rewrite <- app_assoc. reflexivity.
Qed.

Lemma for_each_display_block (c : list Block) (st : State) :
  for_each c display_block st = (Return tt, printed_all (flat_map block_lines c) st).
Proof.
  revert st. induction c as [|b c IH]; intros st.
  - destruct st. unfold printed_all. cbn. rewrite app_nil_r. reflexivity.
  - cbn [for_each flat_map]. unfold bind. rewrite display_block_spec, IH.
    destruct st. unfold printed_all. cbn [self_chain stdout files clock ticks].
    rewrite <- app_assoc. reflexivity.
Qed.

Lemma display_chain_spec (st : State) :
  display_chain st =
  (Return tt, printed_all (flat_map block_lines (self_chain st)) st).
Proof.
  unfold display_chain, bind, get_chain. apply for_each_display_block.
Qed.

(** C10. For a freshly constructed chain, with any number of blocks appended
    since, [display_chain] begins with the eight lines of the genesis block,
    and the lines for its event, batch id, location and destination all read
    N/A: the payload has no item under the lowercase key event, although it
    has one under the key Event. *)
Theorem genesis_displayed_as_not_available (payloads : list pydict) (st : State) :
  exists (st' : State) (g : Block) (rest : list Block),
    build_chain payloads st = (Return tt, st') /\
    self_chain st' = g :: rest /\
    dict_get (data g) "Event" (PyStr "N/A") = PyStr "Genesis Block" /\
    dict_get (data g) "event" (PyStr "N/A") = PyStr "N/A" /\
    exists st'' : State,
      display_chain st' = (Return tt, st'') /\
      stdout st'' =
        stdout st' ++
        [String (chr 10) EmptyString +:+ "Block #0";
         "Timestamp: " +:+ timestamp g;
         "Event: N/A";
         "Batch ID: N/A";
         "Location: N/A";
         "Destination: N/A";
         "Hash: " +:+ hash g;
         "Previous Hash: 0"] ++ flat_map block_lines rest.
Proof.
  destruct (build_chain_spec payloads st)
    as (st' & rest & Hrun & Hch & _).
  exists st', (Block_init 0 (clock st (ticks st)) genesis_data "0"), rest.
  split; [exact Hrun|]. split; [exact Hch|]. split; [reflexivity|].
  split; [reflexivity|].
  eexists. split; [apply display_chain_spec|].
  unfold printed_all. cbn [stdout]. rewrite Hch. reflexivity.
Qed.

Example display_fresh_chain :
  stdout (snd ((PharmaBlockChain_init ;; display_chain) initial_state)) =
  [String (chr 10) EmptyString +:+ "Block #0";
   "Timestamp: Mon Apr 28 10:00:00 2025";
   "Event: N/A"; "Batch ID: N/A"; "Location: N/A"; "Destination: N/A";
   "Hash: 299717a1f93cf239e18b153f591fb9292a1495ea8ff152d8a6bce3f91b0525ea";
   "Previous Hash: 0"].
Proof. vm_compute. reflexivity. Qed.

(** ** C8: exporting to the ledger file *)

Example header_row_text : header_row = "Timestamp,Data,Hash" +:+ CRLF.
Proof. reflexivity. Qed.

Lemma append_assoc (a b c : string) : (a +:+ b) +:+ c = a +:+ (b +:+ c).
Proof.
  induction a as [|x a IH]; [reflexivity|].
  change (String x ((a +:+ b) +:+ c) = String x (a +:+ (b +:+ c))).
  rewrite IH. reflexivity.
Qed.

Lemma append_nil_r (a : string) : a +:+ EmptyString = a.
Proof.
  induction a as [|x a IH]; [reflexivity|].
  change (String x (a +:+ EmptyString) = String x a).
  rewrite IH. reflexivity.
Qed.

Lemma str_encode_empty (s : string) :
  (len (str_encode s) =? 0) = String.eqb s EmptyString.
Proof.
  destruct s as [|c s]; [reflexivity|].
  unfold str_encode, len. cbn [list_ascii_of_string flat_map String.eqb].
  rewrite List.length_app.
  assert (1 <= List.length (utf8_char c))%nat.
  { unfold utf8_char. destruct (ord c <? 128); cbn; lia. }
  apply Z.eqb_neq. lia.
Qed.

Lemma set_files_id (st : State) : set_files (files st) st = st.
Proof. destruct st. reflexivity. Qed.

Lemma for_each_writerow (path : string) (c : list Block) :
  forall (st : State) (cur : string),
    files st !! path = Some cur ->
    for_each c (fun block =>
      let data_string := json_dumps (PyDict (data block)) in
      writerow path [timestamp block; data_string; hash block]) st =
    (Return tt, set_files (<[path := cur +:+ data_rows c]> (files st)) st).
Proof.
  induction c as [|b c IH]; intros st cur Hcur.
  - cbn [for_each data_rows fold_right]. rewrite append_nil_r.
    rewrite (insert_id _ _ _ Hcur), set_files_id. reflexivity.
  - cbn [for_each]. unfold bind, writerow at 1, file_write at 1.
    cbv zeta. rewrite Hcur.
    erewrite IH by (cbn [files]; apply lookup_insert_eq).
    unfold set_files. cbn [self_chain stdout files clock ticks].
    rewrite insert_insert_eq. cbn [data_rows fold_right].
    rewrite append_assoc. reflexivity.
Qed.

(** [write_chain] on a destination that can be opened appends the header
    row, if the test asks for it, and then the rows of the chain; nothing
    else changes. *)
Lemma write_chain_spec (path : string) (st : State) :
  openable st path ->
  write_chain path st =
  (Return tt,
   set_files (<[path := default EmptyString (files st !! path)
                        +:+ (if header_needed (files st !! path)
                             then header_row else EmptyString)
                        +:+ data_rows (self_chain st)]> (files st)) st).
Proof.
  intros Hopen.
  destruct st as [c so f cl tk]. unfold set_files. unfold openable in Hopen.
  cbn [self_chain stdout files clock ticks] in *.
  unfold write_chain.
  unfold bind at 1. unfold os_path_exists. cbn [files].
  destruct (f !! path) as [content|] eqn:Hf.
  - rewrite bool_decide_eq_true_2 by (eexists; reflexivity). cbn [negb].
    unfold bind at 1. unfold bind at 1. unfold os_stat_st_size. cbn [files].
    rewrite Hf. rewrite str_encode_empty. cbn [header_needed].
    destruct (String.eqb content EmptyString) eqn:Hempty.
    + unfold ret at 1. unfold bind at 1. unfold open_append.
      cbn [files self_chain stdout clock ticks]. rewrite Hf.
      unfold bind at 1. unfold writerow at 1, file_write.
      cbn [files self_chain stdout clock ticks]. rewrite Hf.
      unfold bind at 1, get_chain. cbn [files self_chain stdout clock ticks].
      erewrite for_each_writerow by (cbn [files]; apply lookup_insert_eq).
      unfold set_files. cbn [files self_chain stdout clock ticks].
      rewrite insert_insert_eq. rewrite append_assoc. reflexivity.
    + unfold bind at 1. unfold open_readline. cbn [files]. rewrite Hf.
      unfold ret at 1. unfold bind at 1. unfold open_append.
      cbn [files self_chain stdout clock ticks]. rewrite Hf.
      fold header_row.
      destruct (str_contains "Timestamp" (first_line content)); cbn [negb].
      * unfold bind at 1. unfold ret at 1. unfold bind at 1, get_chain.
        cbn [files self_chain stdout clock ticks].
        erewrite for_each_writerow by (cbn [files]; exact Hf).
        unfold set_files. cbn [files self_chain stdout clock ticks].
        reflexivity.
      * unfold bind at 1. unfold writerow at 1, file_write.
        cbn [files self_chain stdout clock ticks]. rewrite Hf.
        unfold bind at 1, get_chain. cbn [files self_chain stdout clock ticks].
        erewrite for_each_writerow by (cbn [files]; apply lookup_insert_eq).
        unfold set_files. cbn [files self_chain stdout clock ticks].
        rewrite insert_insert_eq. rewrite append_assoc. reflexivity.
  - assert (Hplain : plain_name path = true).
    { destruct Hopen as [[x Hx]|H]; [discriminate | exact H]. }
    rewrite bool_decide_eq_false_2 by (intros [x Hx]; discriminate). cbn [negb].
    unfold ret at 1. unfold bind at 1. unfold bind at 1. unfold open_append.
    cbn [files self_chain stdout clock ticks]. rewrite Hf, Hplain.
    unfold bind at 1. unfold writerow at 1, file_write.
    cbn [files self_chain stdout clock ticks]. rewrite lookup_insert_eq.
    unfold bind at 1, get_chain. cbn [files self_chain stdout clock ticks].
    erewrite for_each_writerow by (cbn [files]; apply lookup_insert_eq).
    unfold set_files. cbn [files self_chain stdout clock ticks].
    rewrite !insert_insert_eq. cbn [header_needed]. rewrite append_assoc. reflexivity.
Qed.



Lemma no_line_break_cons (c : ascii) (s : string) :
  no_line_break (String c s) =
  negb ((ord c =? 10) || (ord c =? 13)) && no_line_break s.
Proof.
  unfold no_line_break, has_char. cbn [list_ascii_of_string existsb].
  destruct (ord c =? 10), (ord c =? 13),
           (existsb (fun c0 => ord c0 =? 10) (list_ascii_of_string s)),
           (existsb (fun c0 => ord c0 =? 13) (list_ascii_of_string s)); reflexivity.
Qed.

Lemma first_line_app (pre x : string) :
  no_line_break pre = true -> first_line (pre +:+ x) = pre +:+ first_line x.
Proof.
  induction pre as [|c pre IH]; intros H; [reflexivity|].
  rewrite no_line_break_cons in H. apply andb_prop in H. destruct H as [Hc Hpre].
  apply negb_true_iff in Hc.
  change (first_line (String c (pre +:+ x)) = String c (pre +:+ first_line x)).
  cbn [first_line]. rewrite Hc. f_equal. apply IH. exact Hpre.
Qed.


Lemma str_contains_app_l (needle pre x : string) :
  str_contains needle x = true -> str_contains needle (pre +:+ x) = true.
Proof.
  intros H. induction pre as [|c pre IH]; [exact H|].
  change (str_contains needle (String c (pre +:+ x)) = true).
  cbn [str_contains]. rewrite IH. apply orb_true_r.
Qed.

Lemma prefix_app (s x : string) : String.prefix s (s +:+ x) = true.
Proof.
  induction s as [|a s IH]; [destruct x; reflexivity|].
  change (String.prefix (String a s) (String a (s +:+ x)) = true).
  cbn [String.prefix]. destruct (ascii_dec a a) as [_|Hne]; [exact IH | contradiction].
Qed.

Lemma str_contains_prefix (needle x : string) :
  str_contains needle (needle +:+ x) = true.
Proof.
  destruct (needle +:+ x) eqn:E; cbn [str_contains]; rewrite <- E, prefix_app; reflexivity.
Qed.





Example export_genesis_text :
  files (snd ((PharmaBlockChain_init ;; write_chain ledger) initial_state)) !! ledger =
  Some ("Timestamp,Data,Hash" +:+ CRLF +:+
        "Mon Apr 28 10:00:00 2025," +:+ dq "'{''Event'': ''Genesis Block''}'" +:+
        ",299717a1f93cf239e18b153f591fb9292a1495ea8ff152d8a6bce3f91b0525ea" +:+ CRLF).
Proof. vm_compute. reflexivity. Qed.

(** * Further properties *)

Lemma chars_app (a b : string) :
  list_ascii_of_string (a +:+ b) = list_ascii_of_string a ++ list_ascii_of_string b.
Proof.
  induction a as [|x a IH]; [reflexivity|].
  change (x :: list_ascii_of_string (a +:+ b) =
          x :: (list_ascii_of_string a ++ list_ascii_of_string b)).
  rewrite IH. reflexivity.
Qed.

Lemma all_chars_app (P : ascii -> bool) (a b : string) :
  all_chars P (a +:+ b) = all_chars P a && all_chars P b.
Proof. unfold all_chars. rewrite chars_app. apply forallb_app. Qed.

Lemma str_length_app (a b : string) :
  String.length (a +:+ b) = (String.length a + String.length b)%nat.
Proof.
  induction a as [|x a IH]; [reflexivity|].
  change (S (String.length (a +:+ b)) = S (String.length a + String.length b)).
  rewrite IH. reflexivity.
Qed.

Lemma hex_of_byte_shape (b : byte) :
  String.length (SHA256.hex_of_byte b) = 2%nat /\
  all_chars is_hex_char (SHA256.hex_of_byte b) = true.
Proof. destruct b; split; reflexivity. Qed.

Lemma hex_fold_shape (bs : list byte) :
  let s := fold_right (fun b acc => SHA256.hex_of_byte b +:+ acc) EmptyString bs in
  String.length s = (2 * List.length bs)%nat /\ all_chars is_hex_char s = true.
Proof.
  induction bs as [|b bs [IH1 IH2]]; [split; reflexivity|].
  cbn [fold_right List.length]. destruct (hex_of_byte_shape b) as [H1 H2].
  rewrite str_length_app, all_chars_app, H1, H2, IH1, IH2. split; [lia | reflexivity].
Qed.

Lemma compress_length (h blk : list Z) : List.length (SHA256.compress h blk) = 8%nat.
Proof. reflexivity. Qed.

Lemma fold_compress_length (blocks : list (list Z)) (h : list Z) :
  List.length h = 8%nat ->
  List.length (fold_left SHA256.compress blocks h) = 8%nat.
Proof.
  revert h. induction blocks as [|b bs IH]; intros h Hh; [exact Hh|].
  cbn [fold_left]. apply IH. apply compress_length.
Qed.

Lemma flat_map_be_bytes_length (ws : list Z) :
  List.length (flat_map (SHA256.be_bytes 4) ws) = (4 * List.length ws)%nat.
Proof.
  induction ws as [|w ws IH]; [reflexivity|].
  cbn [flat_map]. rewrite List.length_app, IH. cbn [SHA256.be_bytes List.length]. lia.
Qed.

Lemma digest_length (data : list byte) : List.length (SHA256.digest data) = 32%nat.
Proof.
  unfold SHA256.digest. rewrite List.length_map, flat_map_be_bytes_length.
  rewrite fold_compress_length; reflexivity.
Qed.

Lemma hexdigest_shape (data : list byte) : is_hexdigest (SHA256.hexdigest data) = true.
Proof.
  unfold is_hexdigest, SHA256.hexdigest.
  destruct (hex_fold_shape (SHA256.digest data)) as [H1 H2].
  rewrite H1, H2, digest_length. reflexivity.
Qed.

Lemma hexdigest_length (s : string) : is_hexdigest s = true -> String.length s = 64%nat.
Proof.
  unfold is_hexdigest. intros H. apply andb_prop in H. destruct H as [H _].
  apply Nat.eqb_eq. exact H.
Qed.

Lemma eqb_hexdigest_other (s h : string) :
  is_hexdigest h = true -> String.length s <> 64%nat -> String.eqb s h = false.
Proof.
  intros Hh Hs. apply String.eqb_neq. intros ->.
  apply Hs. apply hexdigest_length. exact Hh.
Qed.

Lemma Block_init_hash_shape (i : Z) (ts : string) (d : pydict) (ph : string) :
  is_hexdigest (hash (Block_init i ts d ph)) = true.
Proof. apply hexdigest_shape. Qed.

Lemma build_chain_blocks (payloads : list pydict) (st : State) :
  exists st' : State,
    build_chain payloads st = (Return tt, st') /\
    Forall as_constructed (self_chain st').
Proof.
  unfold build_chain. unfold bind at 1. rewrite PharmaBlockChain_init_spec.
  set (g := Block_init 0 (clock st (ticks st)) genesis_data "0").
  set (st1 := mkState [g] (stdout st) (files st) (clock st) (S (ticks st))).
  destruct (for_each_create_block (Forall as_constructed)
              (fun c t now d H =>
                 proj2 (Forall_app as_constructed (c ++ [t]) _)
                   (conj H (Forall_cons_2 _ _ _
                             (eq_refl : as_constructed (Block_init (index t + 1) now d (hash t)))
                             (Forall_nil_2 _))))
              payloads st1 [] g eq_refl)
    as (st' & more & Hrun & _ & _ & HP & _).
  { repeat constructor. }
  exists st'. split; [exact Hrun | exact HP].
Qed.

Lemma chain_append_spec (b : Block) (st : State) :
  chain_append b st =
  (Return tt, mkState (self_chain st ++ [b]) (stdout st) (files st) (clock st) (ticks st)).
Proof. destruct st. reflexivity. Qed.

Lemma last_block_last (st : State) (c : list Block) (t : Block) :
  self_chain st = c ++ [t] -> last_block st = (Return t, st).
Proof.
  intros H. unfold last_block, bind, get_chain. rewrite H. apply list_getitem_last.
Qed.

Ltac step_create :=
  unfold bind at 1;
  erewrite create_block_spec by (cbn [self_chain]; reflexivity);
  cbn [self_chain stdout files clock ticks].

(** X2. The script at the end of [main.py], run from any state and with any
    clock: it returns normally, the chain ends with eight linked blocks
    followed by the block built with the previous hash WhatAreTheOdds at
    index 8, [validation] answers [False] and the last two lines printed are
    the tamper message for block 8 and the validity line. The ledger file
    received the rows of the first eight blocks only: the tampered block is
    appended after the export. *)
Theorem script_detects_tampering (st : State) :
  exists (st' : State) (c : list Block) (bad : Block),
    main st = (Return false, st') /\
    self_chain st' = c ++ [bad] /\
    List.length c = 8%nat /\
    links_hold c /\
    prev_hash bad = "WhatAreTheOdds" /\ index bad = 8 /\
    stdout st' =
      stdout st ++ flat_map block_lines c ++
      ["Block 8 has been tampered with";
       String (chr 10) EmptyString +:+ "Blockchain Validity: False"] /\
    files st' !! ledger =
      Some (default EmptyString (files st !! ledger)
            +:+ (if header_needed (files st !! ledger) then header_row else EmptyString)
            +:+ data_rows c).
Proof.
  unfold main.
  unfold bind at 1. rewrite PharmaBlockChain_init_spec.
  set (g := Block_init 0 _ _ _).
  change [g] with ([] ++ [g]).
  step_create. set (b1 := Block_init _ _ _ _).
  step_create. set (b2 := Block_init _ _ _ _).
  step_create. set (b3 := Block_init _ _ _ _).
  step_create. set (b4 := Block_init _ _ _ _).
  step_create. set (b5 := Block_init _ _ _ _).
  step_create. set (b6 := Block_init _ _ _ _).
  step_create. set (b7 := Block_init _ _ _ _).
  set (c8 := ((((((([] ++ [g]) ++ [b1]) ++ [b2]) ++ [b3]) ++ [b4]) ++ [b5]) ++ [b6]) ++ [b7]).
  unfold bind at 1. rewrite write_chain_spec by (right; reflexivity).
  cbn [self_chain stdout files clock ticks]. unfold set_files.
  cbn [self_chain stdout files clock ticks].
  unfold bind at 1. rewrite display_chain_spec. unfold printed_all.
  cbn [self_chain stdout files clock ticks].
  unfold bind at 1. unfold tampered_block. unfold bind at 1.
  erewrite last_block_last by (cbn [self_chain]; subst c8; reflexivity).
  unfold bind at 1. unfold time_ctime at 1.
  cbn [self_chain stdout files clock ticks]. unfold ret at 1.
  set (bad := Block_init _ _ _ _).
  unfold bind at 1. rewrite chain_append_spec.
  cbn [self_chain stdout files clock ticks].
  unfold bind at 1. rewrite validation_spec.
  cbn [self_chain stdout files clock ticks].
  assert (Hok : first_broken c8 = None).
  { subst c8 b7 b6 b5 b4 b3 b2 b1. do 7 apply linked_step. reflexivity. }
  assert (Hbad : first_broken (c8 ++ [bad]) = Some 8).
  { subst c8. rewrite (first_broken_snoc _ b7 bad Hok).
    rewrite eqb_hexdigest_other.
    - reflexivity.
    - apply Block_init_hash_shape.
    - cbn. lia. }
  rewrite Hbad. unfold bind at 1. unfold print at 1, printed.
  cbn [self_chain stdout files clock ticks]. unfold ret.
  eexists. exists c8, bad. split; [reflexivity|].
  cbn [self_chain stdout files clock ticks].
  split; [reflexivity|]. split.
  { subst c8. rewrite !List.length_app. reflexivity. }
  split; [apply first_broken_None; exact Hok|].
  split; [reflexivity|]. split.
  { subst bad b7 b6 b5 b4 b3 b2 b1 g. cbn [index Block_init]. reflexivity. }
  split.
  { rewrite <- !app_assoc. reflexivity. }
  apply lookup_insert_eq.
Qed.

(** X1. The hash a block is constructed with is always a string of 64
    lowercase hexadecimal digits, whatever its index, timestamp, payload and
    previous hash are; in particular it is never the genesis sentinel. *)
Theorem block_hash_is_hex_digest (i : Z) (ts : string) (d : pydict) (ph : string) :
  String.length (hash (Block_init i ts d ph)) = 64%nat /\
  all_chars is_hex_char (hash (Block_init i ts d ph)) = true /\
  hash (Block_init i ts d ph) <> "0".
Proof.
  pose proof (Block_init_hash_shape i ts d ph) as H.
  pose proof (hexdigest_length _ H) as HL.
  split; [exact HL|]. split.
  - unfold is_hexdigest in H. apply andb_prop in H. exact (proj2 H).
  - intros E. rewrite E in HL. discriminate.
Qed.

Lemma build_chain_full (payloads : list pydict) (st : State) :
  exists st' rest,
    build_chain payloads st = (Return tt, st') /\
    self_chain st' = Block_init 0 (clock st (ticks st)) genesis_data "0" :: rest /\
    List.length rest = List.length payloads /\
    links_hold (self_chain st') /\
    Forall as_constructed (self_chain st').
Proof.
  destruct (build_chain_spec payloads st)
    as (st' & rest & Hrun & Hch & Hlen & Hok & _).
  destruct (build_chain_blocks payloads st) as (st2 & Hrun2 & HC).
  rewrite Hrun in Hrun2. injection Hrun2 as <-.
  exists st', rest. repeat split; auto. apply first_broken_None. exact Hok.
Qed.

(** X7. In a chain built by the constructor and appends, the stored hash
    of every block, not only of the genesis block, is what [calcHash]
    recomputes and is the digest of the block's own index, timestamp,
    payload and previous hash. *)
(** X: in a built chain the stored hash of every block is the digest of its
    content. *)
Theorem built_chain_digests_recompute (payloads : list pydict) (st : State) :
  exists st' : State,
    build_chain payloads st = (Return tt, st') /\
    forall b : Block, In b (self_chain st') ->
      hash b = calcHash b /\ hash b = content_digest b /\
      block_info b = [("Index", PyInt (index b)); ("Timestamp", PyStr (timestamp b));
                      ("Data", PyDict (data b)); ("Previous Hash", PyStr (prev_hash b))].
Proof.
  destruct (build_chain_full payloads st) as (st' & rest & Hrun & _ & _ & _ & HC).
  exists st'. split; [exact Hrun|]. intros b Hb.
  rewrite Forall_forall in HC.
  assert (Hc : as_constructed b) by (apply HC; apply list_elem_of_In; exact Hb).
  unfold content_digest. rewrite <- Hc.
  rewrite Hc. repeat split; reflexivity.
Qed.

(** X6. In a chain built by the constructor and appends, the genesis block
    is the only block whose previous hash is the sentinel: a block at any
    later position carries a 64-digit digest. *)
Theorem genesis_is_the_only_sentinel_link (payloads : list pydict) (st : State) :
  exists st' : State,
    build_chain payloads st = (Return tt, st') /\
    forall (i : nat) (b : Block),
      self_chain st' !! i = Some b -> (prev_hash b = "0" <-> i = O).
Proof.
  destruct (build_chain_full payloads st) as (st' & rest & Hrun & Hch & _ & HL & HC).
  exists st'. split; [exact Hrun|]. intros i b Hb. destruct i as [|k].
  - rewrite Hch in Hb. cbn in Hb. injection Hb as <-. split; reflexivity.
  - split; [|discriminate]. intros H0. exfalso.
    destruct (lookup_lt_is_Some_2 (self_chain st') k) as [p Hp].
    { apply lookup_lt_Some in Hb. lia. }
    pose proof (HL k b p Hb Hp) as Hlink.
    rewrite Forall_forall in HC.
    assert (Hc : as_constructed p).
    { apply HC. apply list_elem_of_lookup. eauto. }
    rewrite Hc in Hlink.
    pose proof (hexdigest_length _ (Block_init_hash_shape (index p) (timestamp p) (data p) (prev_hash p))) as HLn.
    rewrite <- Hlink, H0 in HLn. discriminate.
Qed.

(** X3. Whenever [validation] answers [False], on any chain, it has printed
    exactly one line, which names the least index whose block does not carry
    the stored hash of the block before it; every link before that index
    holds, and nothing but the output changes. *)
Theorem validation_reports_first_broken_link (st : State) :
  fst (validation st) = Return false ->
  exists k : nat,
    validation st = (Return false, printed (tamper_message (Z.of_nat (S k))) st) /\
    (exists b p, self_chain st !! S k = Some b /\ self_chain st !! k = Some p /\
                 prev_hash b <> hash p) /\
    (forall (j : nat) (b p : Block), (j < k)%nat ->
       self_chain st !! S j = Some b -> self_chain st !! j = Some p ->
       prev_hash b = hash p).
Proof.
  rewrite validation_spec.
  destruct (first_broken (self_chain st)) as [n|] eqn:E; [|discriminate].
  intros _. destruct (self_chain st) as [|g rest]; [discriminate|].
  cbn [first_broken] in E.
  destruct (first_bad_link_Some _ _ _ _ E) as (k & -> & Hbad & Hleast).
  exists k. replace (Z.of_nat (S k)) with (1 + Z.of_nat k) by lia.
  repeat split; auto.
Qed.

(** X3 (witness): a chain with broken links at indices 2 and 3. *)
Lemma validation_reports_first_broken_link_witness :
  fst (validation ex_twice_broken) = Return false /\
  exists k : nat,
    validation ex_twice_broken =
      (Return false, printed (tamper_message (Z.of_nat (S k))) ex_twice_broken).
Proof.
  assert (H : fst (validation ex_twice_broken) = Return false)
    by (vm_compute; reflexivity).
  split; [exact H|].
  destruct (validation_reports_first_broken_link ex_twice_broken H) as (k & Hv & _).
  exists k. exact Hv.
Defined.

Lemma first_bad_link_snoc_Some (rest : list Block) (prev b : Block) (i n : Z) :
  first_bad_link i prev rest = Some n ->
  first_bad_link i prev (rest ++ [b]) = Some n.
Proof.
  revert prev i. induction rest as [|x rest IH]; intros prev i; cbn [first_bad_link app].
  - discriminate.
  - destruct (String.eqb (prev_hash x) (hash prev)); [apply IH | auto].
Qed.

Lemma first_broken_append_linked (c : list Block) (t b : Block) :
  prev_hash b = hash t ->
  first_broken ((c ++ [t]) ++ [b]) = first_broken (c ++ [t]).
Proof.
  intros Hb. destruct (first_broken (c ++ [t])) as [n|] eqn:E.
  - destruct c as [|g rest]; [discriminate|].
    cbn [app first_broken] in *. apply first_bad_link_snoc_Some. exact E.
  - rewrite (first_broken_snoc c t b E), Hb, String.eqb_refl. reflexivity.
Qed.

(** X4. [create_block] never repairs and never breaks a chain: on a chain
    that is not empty, [validation] gives after the append the verdict it
    gave before, and names the same first broken link. *)
Theorem create_block_keeps_verdict (st : State) (c : list Block) (t : Block) (d : pydict) :
  self_chain st = c ++ [t] ->
  let st1 := snd (create_block d st) in
  fst (validation st1) = fst (validation st) /\
  first_broken (self_chain st1) = first_broken (self_chain st) /\
  (forall line, stdout (snd (validation st)) = stdout st ++ [line] ->
                stdout (snd (validation st1)) = stdout st1 ++ [line]).
Proof.
  intros Hc st1.
  assert (Hfb : first_broken (self_chain st1) = first_broken (self_chain st)).
  { subst st1. rewrite (create_block_spec st c t d Hc). cbn [snd self_chain].
    rewrite Hc. apply first_broken_append_linked. reflexivity. }
  rewrite !validation_spec, Hfb.
  destruct (first_broken (self_chain st)) as [n|]; cbn [fst snd].
  - repeat split; auto. unfold printed. cbn [stdout].
    intros line Hl. apply app_inv_head in Hl. rewrite Hl. reflexivity.
  - repeat split; auto. intros line Hl. exfalso.
    apply (f_equal (@List.length string)) in Hl. rewrite List.length_app in Hl.
    cbn in Hl. lia.
Qed.

(** X4 (witness): appending to a chain broken at index 2. *)
Lemma create_block_keeps_verdict_witness :
  fst (validation (snd (create_block ex_payload_ab ex_twice_broken))) = Return false /\
  first_broken (self_chain (snd (create_block ex_payload_ab ex_twice_broken))) = Some 2.
Proof.
  destruct (create_block_keeps_verdict ex_twice_broken
              [ex_genesis; ex_made; ex_wrong 2] (ex_wrong 3) ex_payload_ab eq_refl)
    as (Hv & Hfb & _).
  split.
  - rewrite Hv. vm_compute. reflexivity.
  - rewrite Hfb. vm_compute. reflexivity.
Defined.

Lemma for_each_create_block_contents (payloads : list pydict) :
  forall (st : State) (c : list Block) (t : Block),
    self_chain st = c ++ [t] ->
    exists st' : State,
      for_each payloads create_block st = (Return tt, st') /\
      map data (self_chain st') = map data (self_chain st) ++ payloads /\
      map timestamp (self_chain st') =
        map timestamp (self_chain st) ++
        map (clock st) (seq (ticks st) (List.length payloads)) /\
      ticks st' = (ticks st + List.length payloads)%nat /\
      clock st' = clock st.
Proof.
  induction payloads as [|d ds IH]; intros st c t Hc.
  - exists st. cbn [for_each List.length seq map]. rewrite !app_nil_r.
    repeat split; auto.
  - cbn [for_each]. unfold bind at 1. rewrite (create_block_spec st c t d Hc).
    set (b := Block_init (index t + 1) (clock st (ticks st)) d (hash t)).
    set (st1 := mkState ((c ++ [t]) ++ [b]) (stdout st) (files st) (clock st)
                        (S (ticks st))).
    destruct (IH st1 (c ++ [t]) b eq_refl) as (st' & Hrun & Hd & Hts & Htk & Hcl).
    exists st'. split; [exact Hrun|].
    subst st1. cbn [self_chain ticks clock] in *. rewrite Hc.
    rewrite Hd, Hts, Htk, Hcl, !map_app. cbn [map List.length seq].
    rewrite <- !app_assoc. repeat split; auto; lia.
Qed.

(** X5. The constructor followed by appends stores the genesis marker and
    then the payloads, unchanged and in the order given; the timestamps of
    the blocks are the successive readings of the clock, one reading per
    block. *)
Theorem build_chain_stores_payloads_in_order (payloads : list pydict) (st : State) :
  exists st' : State,
    build_chain payloads st = (Return tt, st') /\
    map data (self_chain st') = [("Event", PyStr "Genesis Block")] :: payloads /\
    map timestamp (self_chain st') =
      map (clock st) (seq (ticks st) (S (List.length payloads))) /\
    ticks st' = (ticks st + S (List.length payloads))%nat.
Proof.
  unfold build_chain. unfold bind at 1. rewrite PharmaBlockChain_init_spec.
  set (g := Block_init 0 (clock st (ticks st)) genesis_data "0").
  set (st1 := mkState [g] (stdout st) (files st) (clock st) (S (ticks st))).
  destruct (for_each_create_block_contents payloads st1 [] g eq_refl)
    as (st' & Hrun & Hd & Hts & Htk & _).
  exists st'. split; [exact Hrun|]. rewrite Hd, Hts, Htk.
  subst st1. cbn [self_chain ticks clock map seq app]. repeat split; auto; lia.
Qed.

Lemma all_chars_concat_map (P : ascii -> bool) (f : ascii -> string) (s : string) :
  (forall c, all_chars P (f c) = true) -> all_chars P (concat_map f s) = true.
Proof.
  intros Hf. unfold concat_map.
  induction (list_ascii_of_string s) as [|c l IH]; [reflexivity|].
  cbn [fold_right]. rewrite all_chars_app, Hf, IH. reflexivity.
Qed.

Lemma json_escape_printable (c : ascii) :
  all_chars printable_ascii (json_escape c) = true.
Proof. destruct c as [[] [] [] [] [] [] [] []]; reflexivity. Qed.

Lemma json_string_printable (s : string) :
  all_chars printable_ascii (json_string s) = true.
Proof.
  unfold json_string. rewrite !all_chars_app.
  rewrite (all_chars_concat_map _ _ _ json_escape_printable). reflexivity.
Qed.

Lemma string_of_uint_printable (d : Decimal.uint) :
  all_chars printable_ascii (NilEmpty.string_of_uint d) = true.
Proof. induction d; cbn [NilEmpty.string_of_uint]; auto. Qed.

Lemma int_repr_printable (z : Z) : all_chars printable_ascii (int_repr z) = true.
Proof.
  unfold int_repr. destruct (Z.to_int z) as [d|d]; cbn [NilZero.string_of_int].
  - destruct d; try apply string_of_uint_printable. reflexivity.
  - assert (H : all_chars printable_ascii (NilZero.string_of_uint d) = true).
    { destruct d; try apply string_of_uint_printable. reflexivity. }
    unfold all_chars in *. cbn [list_ascii_of_string forallb]. rewrite H. reflexivity.
Qed.

Lemma join_printable (sep : string) (parts : list string) :
  all_chars printable_ascii sep = true ->
  Forall (fun p => all_chars printable_ascii p = true) parts ->
  all_chars printable_ascii (join sep parts) = true.
Proof.
  intros Hsep. induction 1 as [|p rest Hp Hrest IH]; [reflexivity|].
  cbn [join]. destruct rest as [|q rest']; [exact Hp|].
  rewrite !all_chars_app, Hp, Hsep, IH. reflexivity.
Qed.

Lemma Forall_insert_item {A} (Q : string * A -> Prop) (x : string * A) (l : list (string * A)) :
  Q x -> Forall Q l -> Forall Q (insert_item x l).
Proof.
  intros Hx. induction 1 as [|y l Hy Hl IH]; cbn [insert_item].
  - repeat constructor. exact Hx.
  - destruct (String.leb (fst x) (fst y)); repeat constructor; auto.
Qed.

Lemma Forall_sorted_items {A} (Q : string * A -> Prop) (l : list (string * A)) :
  Forall Q l -> Forall Q (sorted_items l).
Proof.
  unfold sorted_items. induction 1 as [|x l Hx Hl IH]; cbn [fold_right].
  - constructor.
  - apply Forall_insert_item; assumption.
Qed.

Lemma json_dumps_printable (v : pyval) :
  all_chars printable_ascii (json_dumps v) = true.
Proof.
  induction v as [ | b | z | s | l IH | d IH] using pyval_nested_ind.
  - reflexivity.
  - destruct b; reflexivity.
  - apply int_repr_printable.
  - apply json_string_printable.
  - cbn [json_dumps]. rewrite !all_chars_app, join_printable; [reflexivity..|].
    induction IH; constructor; auto.
  - cbn [json_dumps]. rewrite !all_chars_app, join_printable; [reflexivity..|].
    assert (HF : Forall (fun kv : string * string =>
                           all_chars printable_ascii (snd kv) = true)
                        (map (fun kv : string * pyval => (fst kv, json_dumps (snd kv))) d)).
    { induction IH; constructor; auto. }
    apply Forall_sorted_items in HF.
    induction HF as [|x l Hx Hl IHl]; constructor; [|exact IHl].
    unfold json_item. rewrite !all_chars_app, json_string_printable, Hx. reflexivity.
Qed.

Lemma utf8_char_ascii (c : ascii) :
  printable_ascii c = true -> utf8_char c = [byte_of_ascii c].
Proof. destruct c as [[] [] [] [] [] [] [] []]; intros H; try discriminate H; reflexivity. Qed.

Lemma str_encode_ascii (s : string) :
  all_chars printable_ascii s = true ->
  str_encode s = map byte_of_ascii (list_ascii_of_string s).
Proof.
  unfold str_encode, all_chars.
  induction (list_ascii_of_string s) as [|c l IH]; [reflexivity|].
  cbn [forallb flat_map map]. intros H. apply andb_prop in H. destruct H as [Hc Hl].
  rewrite (utf8_char_ascii c Hc), (IH Hl). reflexivity.
Qed.

(** X8. The text [json.dumps] produces consists of printable ASCII
    characters only, whatever the value holds (control and non-ASCII
    characters are escaped), so [encode()] turns it into one byte per
    character. *)
Theorem hashed_text_is_plain_ascii (v : pyval) :
  all_chars printable_ascii (json_dumps v) = true /\
  str_encode (json_dumps v) = map byte_of_ascii (list_ascii_of_string (json_dumps v)) /\
  List.length (str_encode (json_dumps v)) = String.length (json_dumps v).
Proof.
  pose proof (json_dumps_printable v) as H.
  split; [exact H|]. split; [apply str_encode_ascii; exact H|].
  rewrite (str_encode_ascii _ H), List.length_map.
  clear H. induction (json_dumps v) as [|c s IH]; [reflexivity|].
  cbn [list_ascii_of_string List.length String.length]. rewrite IH. reflexivity.
Qed.

Lemma dict_get_absent (d : pydict) (key : string) (default : pyval) :
  ~ In key (map fst d) -> dict_get d key default = default.
Proof.
  induction d as [|[k v] d IH]; intros H; [reflexivity|].
  cbn [dict_get]. destruct (String.eqb_spec k key) as [->|Hne].
  - exfalso. apply H. left. reflexivity.
  - apply IH. intros Hin. apply H. right. exact Hin.
Qed.

Lemma dict_get_present (d : pydict) (key : string) (v default : pyval) :
  NoDup (map fst d) -> In (key, v) d -> dict_get d key default = v.
Proof.
  induction d as [|[k x] d IH]; intros Hnd Hin; [destruct Hin|].
  cbn [dict_get]. cbn [map fst] in Hnd. apply NoDup_cons in Hnd. destruct Hnd as [Hk Hnd].
  destruct Hin as [E|Hin].
  - injection E as -> ->. rewrite String.eqb_refl. reflexivity.
  - destruct (String.eqb_spec k key) as [->|Hne]; [|apply IH; assumption].
    exfalso. apply Hk. apply list_elem_of_In.
    change key with (fst (key, v)). apply in_map. exact Hin.
Qed.

(** X9. What [display_chain] prints for a block: eight lines, of which the
    four payload lines read N/A when the payload has no item under the key,
    the string itself when the item is a string, None when it is [None] and
    the decimal digits when it is an integer. *)
Theorem display_block_fields (block : Block) (st : State) :
  let shown key := py_str (dict_get (data block) key (PyStr "N/A")) in
  display_block block st =
    (Return tt,
     printed_all
       [String (chr 10) EmptyString +:+ "Block #" +:+ int_repr (index block);
        "Timestamp: " +:+ timestamp block;
        "Event: " +:+ shown "event";
        "Batch ID: " +:+ shown "batch_id";
        "Location: " +:+ shown "location";
        "Destination: " +:+ shown "destination";
        "Hash: " +:+ hash block;
        "Previous Hash: " +:+ prev_hash block] st) /\
  forall key : string,
    (~ In key (map fst (data block)) -> shown key = "N/A") /\
    (NoDup (map fst (data block)) ->
     (forall s, In (key, PyStr s) (data block) -> shown key = s) /\
     (In (key, PyNone) (data block) -> shown key = "None") /\
     (forall z, In (key, PyInt z) (data block) -> shown key = int_repr z)).
Proof.
  cbv zeta. split; [apply display_block_spec|].
  intros key. split.
  - intros H. rewrite dict_get_absent by exact H. reflexivity.
  - intros Hnd. repeat split.
    + intros s H. rewrite (dict_get_present _ _ _ _ Hnd H). reflexivity.
    + intros H. rewrite (dict_get_present _ _ _ _ Hnd H). reflexivity.
    + intros z H. rewrite (dict_get_present _ _ _ _ Hnd H). reflexivity.
Qed.

(** X9 (witness): a payload with an event, a batch id of [None], and
    neither location nor destination. *)
Lemma display_block_fields_witness :
  stdout (snd (display_block ex_partial_block (state_of []))) =
  [String (chr 10) EmptyString +:+ "Block #5";
   "Timestamp: " +:+ noon;
   "Event: Recalled"; "Batch ID: None"; "Location: N/A"; "Destination: N/A";
   "Hash: " +:+ hash ex_partial_block; "Previous Hash: 0"].
Proof.
  destruct (display_block_fields ex_partial_block (state_of [])) as [Hrun Hkeys].
  rewrite Hrun. cbn [snd printed_all stdout state_of app].
  assert (Hnd : NoDup (map fst (data ex_partial_block)))
    by (refine (bool_decide_unpack _ _); reflexivity).
  destruct (Hkeys "event") as [_ He]. destruct (He Hnd) as (He1 & _).
  destruct (Hkeys "batch_id") as [_ Hb]. destruct (Hb Hnd) as (_ & Hb1 & _).
  destruct (Hkeys "location") as [Hl _].
  destruct (Hkeys "destination") as [Hd _].
  rewrite (He1 "Recalled") by (left; reflexivity).
  rewrite Hb1 by (right; left; reflexivity).
  rewrite Hl by (cbn; intuition discriminate).
  rewrite Hd by (cbn; intuition discriminate).
  reflexivity.
Defined.




(** X11. On a destination that exists or whose name is a plain file name,
    [write_chain] returns normally and only ever appends: what the
    destination held stays in front, what is added is the rows of the chain,
    with or without the header row before them; it prints nothing and leaves
    the chain and the clock alone. *)
Theorem write_chain_only_appends (path : string) (st : State) :
  openable st path ->
  exists (st' : State) (added : string),
    write_chain path st = (Return tt, st') /\
    files st' !! path = Some (default EmptyString (files st !! path) +:+ added) /\
    (added = data_rows (self_chain st) \/
     added = header_row +:+ data_rows (self_chain st)) /\
    stdout st' = stdout st /\ self_chain st' = self_chain st /\
    clock st' = clock st /\ ticks st' = ticks st.
Proof.
  intros Hopen.
  eexists. eexists. split; [apply write_chain_spec; exact Hopen|].
  unfold set_files. cbn [self_chain stdout files clock ticks].
  rewrite lookup_insert_eq. split; [reflexivity|].
  split; [|repeat split].
  destruct (header_needed (files st !! path)); [right | left]; reflexivity.
Qed.

(** X11 (witness): exporting the chain genesis to a file that holds a
    header. *)
Lemma write_chain_only_appends_witness :
  let st := mkState [ex_genesis] [] {[ ledger := header_row ]} (fun _ => noon) 0 in
  exists st' : State,
    write_chain ledger st = (Return tt, st') /\
    files st' !! ledger = Some (header_row +:+ block_row ex_genesis) /\
    stdout st' = [].
Proof.
  cbv zeta.
  destruct (write_chain_only_appends ledger
              (mkState [ex_genesis] [] {[ ledger := header_row ]} (fun _ => noon) 0)
              (or_intror eq_refl))
    as (st' & added & Hrun & Hf & _ & Hso & _).
  exists st'. split; [exact Hrun|]. split; [|exact Hso].
  replace st' with
    (snd (write_chain ledger
            (mkState [ex_genesis] [] {[ ledger := header_row ]} (fun _ => noon) 0)))
    by (rewrite Hrun; reflexivity).
  vm_compute. reflexivity.
Defined.

Lemma header_needed_header (x : string) :
  header_needed (Some (header_row +:+ x)) = false.
Proof. reflexivity. Qed.

Lemma export_times_with_header (n : nat) (path : string) :
  forall (st : State) (x : string),
    files st !! path = Some (header_row +:+ x) ->
    exists st' : State,
      export_times n path st = (Return tt, st') /\
      files st' !! path =
        Some (header_row +:+ x +:+ repeat_text n (data_rows (self_chain st))) /\
      self_chain st' = self_chain st.
Proof.
  induction n as [|n IH]; intros st x Hf.
  - exists st. cbn [export_times repeat_text]. rewrite append_nil_r. auto.
  - cbn [export_times]. unfold bind at 1.
    rewrite write_chain_spec by (left; rewrite Hf; eexists; reflexivity).
    rewrite Hf, header_needed_header.
    change (default EmptyString (Some (header_row +:+ x))) with (header_row +:+ x).
    change (EmptyString +:+ data_rows (self_chain st)) with (data_rows (self_chain st)).
    rewrite append_assoc.
    destruct (IH (set_files (<[path := header_row +:+ x +:+ data_rows (self_chain st)]> (files st)) st)
                 (x +:+ data_rows (self_chain st)))
      as (st' & Hrun & Hf' & Hc).
    { unfold set_files. cbn [files]. apply lookup_insert_eq. }
    exists st'. split; [exact Hrun|]. split; [|exact Hc].
    rewrite Hf'. cbn [repeat_text]. unfold set_files. cbn [self_chain].
    rewrite append_assoc. reflexivity.
Qed.

(** X12. Exporting any number of times, at least once, to a destination
    that was empty, or was absent under a plain file name, leaves one header
    row followed by as many copies of the rows as there were exports. *)
Theorem repeated_export_has_one_header (n : nat) (path : string) (st : State) :
  (files st !! path = None /\ plain_name path = true) \/
  files st !! path = Some EmptyString ->
  exists st' : State,
    export_times (S n) path st = (Return tt, st') /\
    files st' !! path =
      Some (header_row +:+ repeat_text (S n) (data_rows (self_chain st))).
Proof.
  intros H. cbn [export_times]. unfold bind at 1.
  rewrite write_chain_spec.
  2:{ destruct H as [[_ Hp]|He]; [right; exact Hp | left; rewrite He; eexists; reflexivity]. }
  assert (Hfresh : default EmptyString (files st !! path)
                   +:+ (if header_needed (files st !! path) then header_row else EmptyString)
                   +:+ data_rows (self_chain st)
                   = header_row +:+ data_rows (self_chain st)).
  { destruct H as [[-> _] | ->]; reflexivity. }
  rewrite Hfresh.
  destruct (export_times_with_header n path
              (set_files (<[path := header_row +:+ data_rows (self_chain st)]> (files st)) st)
              (data_rows (self_chain st)))
    as (st' & Hrun & Hf' & _).
  { unfold set_files. cbn [files]. apply lookup_insert_eq. }
  exists st'. split; [exact Hrun|]. rewrite Hf'. reflexivity.
Qed.

(** X12 (witness): three exports of the chain genesis, made. *)
Lemma repeated_export_has_one_header_witness :
  exists st' : State,
    export_times 3 ledger (state_of [ex_genesis; ex_made]) = (Return tt, st') /\
    files st' !! ledger =
      Some (header_row +:+ repeat_text 3 (block_row ex_genesis +:+ block_row ex_made)).
Proof.
  destruct (repeated_export_has_one_header 2 ledger (state_of [ex_genesis; ex_made])
              (or_introl (conj eq_refl eq_refl))) as (st' & Hrun & Hf).
  exists st'. split; [exact Hrun|]. rewrite Hf.
  cbn [data_rows fold_right self_chain state_of]. rewrite append_nil_r. reflexivity.
Defined.

(** X13. The header test looks for the word Timestamp anywhere on the
    first line: a destination whose first line merely contains it gets no
    header row, only the rows. *)
Theorem header_recognised_anywhere_on_first_line (path pre post : string) (st : State) :
  no_line_break pre = true ->
  files st !! path = Some (pre +:+ "Timestamp" +:+ post) ->
  exists st' : State,
    write_chain path st = (Return tt, st') /\
    files st' !! path =
      Some ((pre +:+ "Timestamp" +:+ post) +:+ data_rows (self_chain st)).
Proof.
  intros Hpre Hf. eexists.
  split; [apply write_chain_spec; left; rewrite Hf; eexists; reflexivity|].
  unfold set_files. cbn [files]. rewrite lookup_insert_eq, Hf.
  assert (Hn : header_needed (Some (pre +:+ "Timestamp" +:+ post)) = false).
  { cbn [header_needed].
    destruct (String.eqb_spec (pre +:+ "Timestamp" +:+ post) EmptyString) as [E|_].
    - destruct pre; discriminate E.
    - rewrite (first_line_app _ _ Hpre), str_contains_app_l; [reflexivity|].
      change (first_line ("Timestamp" +:+ post)) with ("Timestamp" +:+ first_line post).
      apply str_contains_prefix. }
  rewrite Hn. reflexivity.
Qed.

(** X13 (witness): a file whose first line reads Audit Timestamps. *)
Lemma header_recognised_anywhere_on_first_line_witness :
  let st := mkState [ex_genesis] [] {[ ledger := "Audit Timestamps" +:+ CRLF +:+ "x" ]}
                    (fun _ => noon) 0 in
  exists st' : State,
    write_chain ledger st = (Return tt, st') /\
    files st' !! ledger =
      Some (("Audit " +:+ "Timestamp" +:+ ("s" +:+ CRLF +:+ "x")) +:+ block_row ex_genesis).
Proof.
  cbv zeta.
  assert (H0 : files (mkState [ex_genesis] []
                        {[ ledger := "Audit Timestamps" +:+ CRLF +:+ "x" ]}
                        (fun _ => noon) 0) !! ledger =
               Some ("Audit " +:+ "Timestamp" +:+ ("s" +:+ CRLF +:+ "x")))
    by (vm_compute; reflexivity).
  destruct (header_recognised_anywhere_on_first_line ledger "Audit " ("s" +:+ CRLF +:+ "x")
              _ eq_refl H0)
    as (st' & Hrun & Hf).
  exists st'. split; [exact Hrun|]. rewrite Hf.
  cbn [data_rows fold_right self_chain]. rewrite append_nil_r. reflexivity.
Defined.

Lemma bind_ext {A B} (c : M A) (k1 k2 : A -> M B) (st : State) :
  (forall a st', k1 a st' = k2 a st') -> bind c k1 st = bind c k2 st.
Proof. intros H. unfold bind. destruct (c st) as [[a|e] st']; auto. Qed.

Lemma spring2_validation_loop_same (indices : list Z) (st : State) :
  Spring2.validation_loop indices st = validation_loop indices st.
Proof.
  revert st. induction indices as [|i rest IH]; intros st; [reflexivity|].
  cbn [Spring2.validation_loop validation_loop].
  apply bind_ext. intros c st1. apply bind_ext. intros cur st2.
  apply bind_ext. intros prev st3.
  destruct (negb (String.eqb (prev_hash cur) (hash prev))); [reflexivity | apply IH].
Qed.

(** X14. The [validation] of the April draft, which makes the comparison
    twice, returns and prints exactly what the [validation] of [main.py]
    does, on every chain: its second test never fires. *)
Theorem spring2_validation_is_validation (st : State) :
  Spring2.validation st = validation st.
Proof.
  unfold Spring2.validation, validation. apply bind_ext.
  intros c st1. apply spring2_validation_loop_same.
Qed.

Lemma sprint1_last_block_snoc (c : list Sprint1.MyCoinBlock) (t : Sprint1.MyCoinBlock) :
  Sprint1.last_block (c ++ [t]) = Return t.
Proof.
  destruct c as [|b rest]; [reflexivity|].
  cbn [app Sprint1.last_block]. rewrite List.last_last. reflexivity.
Qed.

Lemma coin_links_snoc (c : list Sprint1.MyCoinBlock) (t : Sprint1.MyCoinBlock)
    (txs : list string) :
  coin_links_hold (c ++ [t]) ->
  coin_links_hold ((c ++ [t]) ++ [Sprint1.MyCoinBlock_init (Sprint1.block_hash t) txs]).
Proof.
  intros H i b p Hb Hp.
  destruct (Nat.lt_ge_cases (S i) (List.length (c ++ [t]))) as [Hlt|Hge].
  - rewrite lookup_app_l in Hb by exact Hlt.
    rewrite lookup_app_l in Hp by lia. exact (H i b p Hb Hp).
  - assert (Hi : (i < List.length (c ++ [t]))%nat).
    { apply lookup_lt_Some in Hb. rewrite List.length_app in Hb. cbn in Hb. lia. }
    rewrite lookup_app_r in Hb by exact Hge.
    replace (S i - List.length (c ++ [t]))%nat with O in Hb by lia.
    cbn in Hb. injection Hb as <-.
    rewrite lookup_app_l in Hp by exact Hi.
    assert (Hlast : i = List.length c).
    { rewrite List.length_app in *. cbn [List.length] in *. lia. }
    subst i. rewrite lookup_app_r in Hp by lia. rewrite Nat.sub_diag in Hp.
    cbn in Hp. injection Hp as <-. reflexivity.
Qed.

Lemma sprint1_create_all (lists : list (list string)) :
  forall (c : list Sprint1.MyCoinBlock) (t : Sprint1.MyCoinBlock),
    coin_links_hold (c ++ [t]) ->
    exists more : list Sprint1.MyCoinBlock,
      Sprint1.create_all (c ++ [t]) lists = Return ((c ++ [t]) ++ more) /\
      map Sprint1.transaction_list more = lists /\
      coin_links_hold ((c ++ [t]) ++ more).
Proof.
  induction lists as [|txs rest IH]; intros c t HL.
  - exists []. rewrite app_nil_r. auto.
  - cbn [Sprint1.create_all]. unfold Sprint1.create_transaction_block.
    rewrite sprint1_last_block_snoc.
    destruct (IH (c ++ [t]) _ (coin_links_snoc c t txs HL)) as (more & Hrun & Hm & HL').
    exists (Sprint1.MyCoinBlock_init (Sprint1.block_hash t) txs :: more).
    rewrite Hrun. rewrite <- !app_assoc in *. cbn [app map] in *.
    rewrite Hm. auto.
Qed.

(** X15. In the March draft, the constructor followed by any number of
    [create_transaction_block] calls never raises; the first block holds the
    text Genesis Block - 0, the transaction lists are stored in order, and
    every later block carries the hash of the block before it. *)
Theorem sprint1_chain_is_linked (lists : list (list string)) :
  exists rest : list Sprint1.MyCoinBlock,
    Sprint1.create_all Sprint1.BlockChain_init lists =
      Return (Sprint1.MyCoinBlock_init "0" ["Genesis Block"] :: rest) /\
    Sprint1.block_data (Sprint1.MyCoinBlock_init "0" ["Genesis Block"]) = "Genesis Block - 0" /\
    map Sprint1.transaction_list rest = lists /\
    forall (i : nat) (b p : Sprint1.MyCoinBlock),
      (Sprint1.MyCoinBlock_init "0" ["Genesis Block"] :: rest) !! S i = Some b ->
      (Sprint1.MyCoinBlock_init "0" ["Genesis Block"] :: rest) !! i = Some p ->
      Sprint1.previous_block_hash b = Sprint1.block_hash p.
Proof.
  destruct (sprint1_create_all lists [] (Sprint1.MyCoinBlock_init "0" ["Genesis Block"]))
    as (more & Hrun & Hm & HL).
  { intros [|i] b p Hb Hp; discriminate. }
  exists more. split; [exact Hrun|]. split; [reflexivity|]. split; [exact Hm|].
  exact HL.
Qed.

(** X16. In the March draft the hashed text joins the transactions and the
    previous hash with the same separator, so the hash does not tell two
    transactions from one transaction that contains the separator, nor the
    last transaction from the front of the previous hash. *)
Theorem sprint1_hash_does_not_separate_transactions
    (p a b : string) (rest : list string) :
  Sprint1.block_hash (Sprint1.MyCoinBlock_init p (a :: b :: rest)) =
  Sprint1.block_hash (Sprint1.MyCoinBlock_init p ((a +:+ " - " +:+ b) :: rest)) /\
  Sprint1.block_hash (Sprint1.MyCoinBlock_init p [a; b]) =
  Sprint1.block_hash (Sprint1.MyCoinBlock_init (b +:+ " - " +:+ p) [a]) /\
  a :: b :: rest <> (a +:+ " - " +:+ b) :: rest.
Proof.
  split; [|split].
  - unfold Sprint1.MyCoinBlock_init. cbn [Sprint1.block_hash]. do 3 f_equal.
    destruct rest as [|r rs]; cbn [join]; [reflexivity|].
    rewrite !append_assoc. reflexivity.
  - unfold Sprint1.MyCoinBlock_init. cbn [Sprint1.block_hash join]. do 2 f_equal.
    rewrite !append_assoc. reflexivity.
  - intros E. apply (f_equal (@List.length string)) in E. cbn in E. lia.
Qed.
